(** * pinax.stripe.admin: read-only admin classes, list filters and
      display columns.

    The development embeds [pinax/stripe/admin.py].  Python values are
    modelled by the data they carry, exceptions by an explicit result type,
    dictionaries by [gmap], Python sets by [gset], and the part of the ORM
    that the list filters call ([filter], [exclude], [annotate], [distinct],
    [values_list]) by executable functions over the tables of a database
    state. *)

From Stdlib Require Import ZArith Ascii DecimalString.
From stdpp Require Import gmap strings list.

Local Open Scope Z_scope.

(** ** Python values, exceptions and requests *)

(** Exceptions raised by the statements used in the file. *)
Inductive PyExc :=
  | KeyError (key : string)
  | AttributeError (name : string)
  | OperationalError.

(** Outcome of a call: a returned value or a raised exception. *)
Inductive Result (A : Type) :=
  | Ok (a : A)
  | Raise (e : PyExc).
Arguments Ok {A} a.
Arguments Raise {A} e.

(** Sequencing of calls: an exception raised by the first one propagates. *)
#[global] Instance Result_bind : MBind Result := λ A B k r,
  match r with
  | Ok a => k a
  | Raise e => Raise e
  end.

(** Scalar attribute values of model instances. *)
Inductive Scalar :=
  | SNone
  | SStr (s : string)
  | SInt (z : Z)
  | SBool (b : bool).

#[global] Instance Scalar_eq_dec : EqDecision Scalar.
Proof. solve_decision. Defined.

(** [str(v)], which is what [format] substitutes for a [{n}] field. *)
Definition py_str (v : Scalar) : string :=
  match v with
  | SNone => "None"
  | SStr s => s
  | SInt z => NilZero.string_of_int (Z.to_int z)
  | SBool true => "True"
  | SBool false => "False"
  end.

(** Values that class attributes such as [search_fields] hold. *)
Unset Elimination Schemes.
Inductive PyVal :=
  | PyStr (s : string)
  | PyList (items : list PyVal)
  | PyTuple (items : list PyVal).
Set Elimination Schemes.

(** The request; only its query parameters are of interest here. *)
Record HttpRequest := { GET : gmap string string }.

(** An entry of the admin actions mapping (the callable itself is left
    out). *)
Record Action := { action_name : string; short_description : string }.

(** [del d[k]]: removes the key, and raises [KeyError] when it is absent. *)
Definition py_del {V} (k : string) (d : gmap string V) : Result (gmap string V) :=
  match d !! k with
  | Some _ => Ok (delete k d)
  | None => Raise (KeyError k)
  end.

(** ** Model metadata *)

Record Field := { name : string }.

(** [model._meta]: the local fields and local many-to-many fields. *)
Record Options := {
  local_fields : list Field;
  local_many_to_many : list Field
}.

(** The state of a [ModelAdmin] instance that the overrides read, and the
    inherited [get_actions] of the framework class. *)
Record ModelAdmin := {
  opts : Options;
  super_get_actions : HttpRequest → gmap string Action
}.

Record InlineModelAdmin := { inline_opts : Options }.

(** The user model returned by [get_user_model()]. *)
Record UserModel := {
  USERNAME_FIELD : string;
  meta_fields : list Field
}.

(** ** class ReadOnlyAdmin(admin.ModelAdmin) *)
Module ReadOnlyAdmin.

Definition get_actions (self : ModelAdmin) (request : HttpRequest)
  : Result (gmap string Action) :=
  let actions := super_get_actions self request in
  py_del "delete_selected" actions.

Definition has_add_permission {Obj : Type} (self : ModelAdmin)
    (request : HttpRequest) (obj : option Obj) : bool :=
  false.

Definition has_delete_permission {Obj : Type} (self : ModelAdmin)
    (request : HttpRequest) (obj : option Obj) : bool :=
  false.

(** [list(set(...))]: the iteration order of a Python set is unspecified;
    [elements] fixes one. *)
Definition get_readonly_fields {Obj : Type} (self : ModelAdmin)
    (request : HttpRequest) (obj : option Obj) : list string :=
  elements (list_to_set
    ((name <$> local_fields (opts self)) ++
     (name <$> local_many_to_many (opts self))) : gset string).

End ReadOnlyAdmin.

(** ** class ReadOnlyInline(admin.TabularInline) *)
Module ReadOnlyInline.

Definition has_add_permission {Obj : Type} (self : InlineModelAdmin)
    (request : HttpRequest) (obj : option Obj) : bool :=
  false.

Definition has_delete_permission {Obj : Type} (self : InlineModelAdmin)
    (request : HttpRequest) (obj : option Obj) : bool :=
  false.

Definition get_readonly_fields {Obj : Type} (self : InlineModelAdmin)
    (request : HttpRequest) (obj : option Obj) : list string :=
  elements (list_to_set
    ((name <$> local_fields (inline_opts self)) ++
     (name <$> local_many_to_many (inline_opts self))) : gset string).

End ReadOnlyInline.

(** ** Search fields *)

Definition user_search_fields (User : UserModel) : list string :=
  let fields := ["user__" +:+ USERNAME_FIELD User] in
  if bool_decide ("email" ∈ name <$> meta_fields User)
  then fields ++ ["user__email"]
  else fields.

Definition customer_search_fields (User : UserModel) : list string :=
  (λ field, "customer__" +:+ field) <$> user_search_fields User.

(** ** Model instances and database state *)

(** Modelled from the spec: the user model is defined outside this file; an
    instance carries its attributes by name, which is how [getattr] reads
    them. *)
Record UserObj := {
  user_pk : Z;
  user_attrs : gmap string Scalar
}.

(** Modelled from the spec: [Customer] is defined in the models module,
    which is not among the sources; the record holds what this file reads
    from a customer: its primary key, [stripe_id] and the [user]
    relation. *)
Record Customer := {
  pk : Z;
  stripe_id : string;
  user : UserObj
}.

(** Modelled from the spec: the card model of the models module, reached
    through the lookups [card] and [card__fingerprint]; a card belongs to
    one customer. *)
Record Card := {
  card_pk : Z;
  card_customer : Z;
  fingerprint : string
}.

(** Modelled from the spec: [Subscription] of the models module, with the
    [customer] relation and the [status] column that this file queries. *)
Record Subscription := {
  subscription_pk : Z;
  subscription_customer : Z;
  status : string
}.

(** Modelled from the spec: [Invoice] of the models module: its [customer]
    relation, and its remaining instance attributes by name. *)
Record Invoice := {
  invoice_pk : Z;
  customer : Customer;
  invoice_attrs : gmap string Scalar
}.

#[global] Instance UserObj_eq_dec : EqDecision UserObj.
Proof. solve_decision. Defined.
#[global] Instance Customer_eq_dec : EqDecision Customer.
Proof. solve_decision. Defined.
#[global] Instance Card_eq_dec : EqDecision Card.
Proof. solve_decision. Defined.
#[global] Instance Subscription_eq_dec : EqDecision Subscription.
Proof. solve_decision. Defined.
#[global] Instance Invoice_eq_dec : EqDecision Invoice.
Proof. solve_decision. Defined.

(** The tables that the filters query besides the queryset they are
    given. *)
Record Database := {
  card_table : list Card;
  subscription_table : list Subscription
}.

(** [getattr(o, name)] on a user instance. *)
Definition getattr_user (o : UserObj) (attr : string) : Result Scalar :=
  match user_attrs o !! attr with
  | Some v => Ok v
  | None => Raise (AttributeError attr)
  end.

(** [getattr(obj, name, default)] on an invoice instance. *)
Definition getattr_invoice (obj : Invoice) (attr : string) (default : Scalar)
  : Scalar :=
  match invoice_attrs obj !! attr with
  | Some v => v
  | None => default
  end.

(** ** The query-set operations used by the filters

    These are operations of the framework's ORM, given here by the rows
    that the SQL they generate selects.  A queryset is represented by the
    rows it yields, in order and with their multiplicities.  [rel] gives,
    for a row, the primary key of the customer whose cards the lookup path
    reaches: the row's own [pk] for the path [card], the related customer's
    for [customer__card]. *)

(** The lookups of this file, combined with [|]. *)
Inductive Q :=
  | Q_card_fingerprint (v : string)   (* Q(..card__fingerprint=v) *)
  | Q_card_None                       (* Q(..card=None) *)
  | Q_or (a b : Q).

Definition cards_of (db : Database) (cid : Z) : list Card :=
  filter (λ c, card_customer c = cid) (card_table db).

Definition subscriptions_of (db : Database) (cid : Z) : list Subscription :=
  filter (λ s, subscription_customer s = cid) (subscription_table db).

(** LEFT OUTER JOIN on the card table: one joined row per card, or a single
    all-NULL one. *)
Definition left_outer_join_card (db : Database) (cid : Z) : list (option Card) :=
  match cards_of db cid with
  | [] => [None]
  | cs => Some <$> cs
  end.

(** The WHERE clause of [filter] on one joined row; both lookups of one
    [filter] call refer to the same joined card. *)
Fixpoint holds_on (q : Q) (joined : option Card) : bool :=
  match q with
  | Q_card_fingerprint v =>
      match joined with
      | Some c => bool_decide (fingerprint c = v)
      | None => false
      end
  | Q_card_None =>
      match joined with
      | Some _ => false
      | None => true
      end
  | Q_or a b => holds_on a joined || holds_on b joined
  end.

(** [queryset.filter(q)]: the rows of the join that satisfy [q]; a row
    comes once per matching joined card.  (The framework yields a row of a
    grouped queryset, one that went through [annotate], once only; the
    properties below that take any queryset speak of membership.) *)
Definition qs_filter {Row} (db : Database) (rel : Row → Z) (q : Q)
    (queryset : list Row) : list Row :=
  row ← queryset;
  (λ _, row) <$> filter (λ j, holds_on q j = true) (left_outer_join_card db (rel row)).

(** The condition [exclude] negates: each lookup across the to-many
    relation becomes a subquery on the card table. *)
Fixpoint matched_by (db : Database) (q : Q) (cid : Z) : bool :=
  match q with
  | Q_card_fingerprint v =>
      bool_decide (Exists (λ c, fingerprint c = v) (cards_of db cid))
  | Q_card_None => bool_decide (cards_of db cid = [])
  | Q_or a b => matched_by db a cid || matched_by db b cid
  end.

(** [queryset.exclude(q)]. *)
Definition qs_exclude {Row} (db : Database) (rel : Row → Z) (q : Q)
    (queryset : list Row) : list Row :=
  filter (λ row, matched_by db q (rel row) = false) queryset.

(** [queryset.exclude(q)] when the lookups of [q] reach the card table
    through the relation [customer]: the framework builds the query, and
    evaluating it fails with [OperationalError]; this is the error that the
    comment in [InvoiceCustomerHasCardListFilter.queryset] reports. *)
Definition qs_exclude_via_customer {Row} (db : Database) (rel : Row → Z)
    (q : Q) (queryset : list Row) : Result (list Row) :=
  Raise OperationalError.

(** [.distinct()]: each value once, in the order of its first
    occurrence. *)
Fixpoint distinct_from `{EqDecision A} (seen l : list A) : list A :=
  match l with
  | [] => []
  | x :: rest =>
      if decide (x ∈ seen) then distinct_from seen rest
      else x :: distinct_from (x :: seen) rest
  end.

Definition qs_distinct `{EqDecision A} (l : list A) : list A :=
  distinct_from [] l.

(** [queryset.all()]: a copy of the queryset. *)
Definition qs_all {Row} (queryset : list Row) : list Row := queryset.

(** [queryset.annotate(subs=Count('subscription'))]: rows grouped, each
    with the number of joined rows that carry a subscription. *)
Definition annotate_count_subscription `{EqDecision Row} (db : Database)
    (rel : Row → Z) (queryset : list Row) : list (Row * nat) :=
  (λ row, (row, (length (filter (λ r, r = row) queryset) *
                 length (subscriptions_of db (rel row)))%nat))
  <$> remove_dups queryset.

(** [.filter(subs=n)] on the annotated queryset. *)
Definition filter_subs {Row} (n : nat) (annotated : list (Row * nat)) : list Row :=
  fst <$> filter (λ rn, snd rn = n) annotated.

(** [Subscription.objects.filter(status=v).values_list('customer',
    flat=True).distinct()], for the value [v] that [value()] returned. *)
Definition customers_with_status (db : Database) (v : option string) : list Z :=
  qs_distinct (subscription_customer <$>
    filter (λ s, Some (status s) = v) (subscription_table db)).

(** [queryset.filter(pk__in=pks)] *)
Definition qs_filter_pk_in (pks : list Z) (queryset : list Customer)
  : list Customer :=
  filter (λ row, pk row ∈ pks) queryset.

(** ** Strings *)

Definition is_lower (c : ascii) : bool :=
  let n := N_of_ascii c in ((97 <=? n) && (n <=? 122))%N.

Definition is_upper (c : ascii) : bool :=
  let n := N_of_ascii c in ((65 <=? n) && (n <=? 90))%N.

Definition to_upper (c : ascii) : ascii :=
  if is_lower c then ascii_of_N (N_of_ascii c - 32) else c.

Definition to_lower (c : ascii) : ascii :=
  if is_upper c then ascii_of_N (N_of_ascii c + 32) else c.

(** [s.replace(old, new)] for one-character [old] and [new]. *)
Fixpoint str_replace (old new : ascii) (s : string) : string :=
  match s with
  | EmptyString => EmptyString
  | String c rest =>
      String (if bool_decide (c = old) then new else c) (str_replace old new rest)
  end.

(** Strings are sequences of bytes, text being encoded in UTF-8; a string
    is ASCII when every byte is below 128. *)
Definition is_ascii_char (c : ascii) : bool := (N_of_ascii c <? 128)%N.

Fixpoint str_is_ascii (s : string) : bool :=
  match s with
  | EmptyString => true
  | String c rest => is_ascii_char c && str_is_ascii rest
  end.

(** The loop of [s.title()] on an ASCII string: a cased character that
    follows an uncased one is upper-cased, one that follows a cased one is
    lower-cased. *)
Fixpoint title_from (previous_is_cased : bool) (s : string) : string :=
  match s with
  | EmptyString => EmptyString
  | String c rest =>
      if is_lower c then
        String (if previous_is_cased then c else to_upper c) (title_from true rest)
      else if is_upper c then
        String (if previous_is_cased then to_lower c else c) (title_from true rest)
      else
        String c (title_from false rest)
  end.

(** [s.title()].  On a string that is not ASCII the built-in follows the
    case tables of Unicode, which are not modelled: there the result is
    the one of [unicode_title], a parameter. *)
Definition str_title (unicode_title : string → string) (s : string) : string :=
  if str_is_ascii s then title_from false s else unicode_title s.

(** ** The list filters *)

(** A [SimpleListFilter] instance holds the query parameters it consumed;
    [value()] reads the one named [parameter_name]. *)
Record SimpleListFilter := { used_parameters : gmap string string }.

(** Truth value of [self.value()]: [None] and the empty string are false. *)
Definition truthy (v : option string) : bool :=
  match v with
  | Some s => bool_decide (s ≠ "")
  | None => false
  end.

Module CustomerHasCardListFilter.

Definition title : string := "card presence".
Definition parameter_name : string := "has_card".

Definition value (self : SimpleListFilter) : option string :=
  used_parameters self !! parameter_name.

Definition lookups (self : SimpleListFilter) (request : HttpRequest)
    (model_admin : ModelAdmin) : list (list string) :=
  [ ["yes"; "Has Card"];
    ["no"; "Does Not Have a Card"] ].

Definition queryset (db : Database) (self : SimpleListFilter)
    (request : HttpRequest) (queryset : list Customer) : list Customer :=
  let no_card := Q_or (Q_card_fingerprint "") Q_card_None in
  if bool_decide (value self = Some "yes") then
    qs_exclude db pk no_card queryset
  else if bool_decide (value self = Some "no") then
    qs_filter db pk no_card queryset
  else qs_all queryset.

End CustomerHasCardListFilter.

Module InvoiceCustomerHasCardListFilter.

Definition title : string := "card presence".
Definition parameter_name : string := "has_card".

Definition value (self : SimpleListFilter) : option string :=
  used_parameters self !! parameter_name.

Definition lookups (self : SimpleListFilter) (request : HttpRequest)
    (model_admin : ModelAdmin) : list (list string) :=
  [ ["yes"; "Has Card"];
    ["no"; "Does Not Have a Card"] ].

(** The lookups go through [customer__]; the result is the outcome of
    evaluating the returned queryset. *)
Definition queryset (db : Database) (self : SimpleListFilter)
    (request : HttpRequest) (queryset : list Invoice) : Result (list Invoice) :=
  let rel := λ row, pk (customer row) in
  let no_card := Q_or (Q_card_fingerprint "") Q_card_None in
  if bool_decide (value self = Some "yes") then
    qs_exclude_via_customer db rel no_card queryset
  else if bool_decide (value self = Some "no") then
    Ok (qs_filter db rel no_card queryset)
  else Ok (qs_all queryset).

End InvoiceCustomerHasCardListFilter.

Module CustomerSubscriptionStatusListFilter.

Definition title : string := "subscription status".
Definition parameter_name : string := "sub_status".

Definition value (self : SimpleListFilter) : option string :=
  used_parameters self !! parameter_name.

Definition lookups (unicode_title : string → string) (db : Database)
    (self : SimpleListFilter) (request : HttpRequest) (model_admin : ModelAdmin)
  : list (list string) :=
  let statuses :=
    (λ x, [x; str_title unicode_title (str_replace "_" " " x)])
    <$> qs_distinct (status <$> subscription_table db) in
  statuses ++ [ ["none"; "No Subscription"] ].

Definition queryset (db : Database) (self : SimpleListFilter)
    (request : HttpRequest) (queryset : list Customer) : list Customer :=
  if bool_decide (value self = Some "none") then
    filter_subs 0 (annotate_count_subscription db pk queryset)
  else if truthy (value self) then
    let customers := customers_with_status db (value self) in
    qs_filter_pk_in customers queryset
  else qs_all queryset.

End CustomerSubscriptionStatusListFilter.

(** ** Display columns *)

Definition customer_user (User : UserModel) (obj : Invoice) : Result string :=
  username ← getattr_user (user (customer obj)) (USERNAME_FIELD User);
  let email := getattr_invoice obj "email" (SStr "") in
  Ok (py_str username +:+ " <" +:+ py_str email +:+ ">").

(** ** The registered admin classes *)

Inductive AdminClass :=
  | cls_ChargeAdmin
  | cls_EventProcessingExceptionAdmin
  | cls_EventAdmin
  | cls_CustomerAdmin
  | cls_InvoiceAdmin
  | cls_PlanAdmin
  | cls_TransferAdmin.

Inductive InlineClass :=
  | cls_SubscriptionInline
  | cls_InvoiceItemInline.

(** Method lookup: each class body holds attributes only, so the four
    methods are found in the base class. *)
Definition get_actions_of (cls : AdminClass) :=
  match cls with
  | cls_ChargeAdmin | cls_EventProcessingExceptionAdmin | cls_EventAdmin
  | cls_CustomerAdmin | cls_InvoiceAdmin | cls_PlanAdmin | cls_TransferAdmin =>
      ReadOnlyAdmin.get_actions
  end.

Definition has_add_permission_of {Obj : Type} (cls : AdminClass) :=
  match cls with
  | cls_ChargeAdmin | cls_EventProcessingExceptionAdmin | cls_EventAdmin
  | cls_CustomerAdmin | cls_InvoiceAdmin | cls_PlanAdmin | cls_TransferAdmin =>
      @ReadOnlyAdmin.has_add_permission Obj
  end.

Definition has_delete_permission_of {Obj : Type} (cls : AdminClass) :=
  match cls with
  | cls_ChargeAdmin | cls_EventProcessingExceptionAdmin | cls_EventAdmin
  | cls_CustomerAdmin | cls_InvoiceAdmin | cls_PlanAdmin | cls_TransferAdmin =>
      @ReadOnlyAdmin.has_delete_permission Obj
  end.

Definition get_readonly_fields_of {Obj : Type} (cls : AdminClass) :=
  match cls with
  | cls_ChargeAdmin | cls_EventProcessingExceptionAdmin | cls_EventAdmin
  | cls_CustomerAdmin | cls_InvoiceAdmin | cls_PlanAdmin | cls_TransferAdmin =>
      @ReadOnlyAdmin.get_readonly_fields Obj
  end.

Definition inline_has_add_permission_of {Obj : Type} (cls : InlineClass) :=
  match cls with
  | cls_SubscriptionInline | cls_InvoiceItemInline =>
      @ReadOnlyInline.has_add_permission Obj
  end.

Definition inline_has_delete_permission_of {Obj : Type} (cls : InlineClass) :=
  match cls with
  | cls_SubscriptionInline | cls_InvoiceItemInline =>
      @ReadOnlyInline.has_delete_permission Obj
  end.

Definition inline_get_readonly_fields_of {Obj : Type} (cls : InlineClass) :=
  match cls with
  | cls_SubscriptionInline | cls_InvoiceItemInline =>
      @ReadOnlyInline.get_readonly_fields Obj
  end.

(** The [search_fields] class attributes. *)
Module ChargeAdmin.
Definition search_fields (User : UserModel) : PyVal :=
  PyList (PyStr <$>
    ["stripe_id"; "customer__stripe_id"; "invoice__stripe_id"]
    ++ customer_search_fields User).
End ChargeAdmin.

Module EventAdmin.
Definition search_fields (User : UserModel) : PyVal :=
  PyList (PyStr <$>
    ["stripe_id"; "customer__stripe_id"; "validated_message"]
    ++ customer_search_fields User).
End EventAdmin.

Module CustomerAdmin.
(** The assignment ends in a comma: the value is a one-element tuple that
    holds the list. *)
Definition search_fields (User : UserModel) : PyVal :=
  PyTuple [ PyList (PyStr <$> ["stripe_id"] ++ user_search_fields User) ].
End CustomerAdmin.

Module InvoiceAdmin.
Definition search_fields (User : UserModel) : PyVal :=
  PyList (PyStr <$>
    ["stripe_id"; "customer__stripe_id"]
    ++ customer_search_fields User).
End InvoiceAdmin.

(** ** Further display columns *)

(** [sep.join(items)] *)
Fixpoint str_join (sep : string) (items : list string) : string :=
  match items with
  | [] => ""
  | x :: rest =>
      match rest with
      | [] => x
      | _ :: _ => x +:+ sep +:+ str_join sep rest
      end
  end.

(** [queryset.exists()] *)
Definition qs_exists {Row} (queryset : list Row) : bool :=
  match queryset with
  | [] => false
  | _ :: _ => true
  end.

(** The column "Subscription Status" of the customer list:
    [obj.subscription_set.all()] is the customer's subscriptions. *)
Definition subscription_status (db : Database) (obj : Customer) : string :=
  str_join ", " (status <$> subscriptions_of db (pk obj)).

(** The column "Customer Has Card" of the invoice list:
    [obj.customer.card_set.exclude(fingerprint='').exists()]; on the card
    table itself [exclude] keeps the rows that do not match. *)
Definition customer_has_card (db : Database) (obj : Invoice) : bool :=
  qs_exists (filter (λ c, fingerprint c ≠ "") (cards_of db (pk (customer obj)))).

(** The keys of the entries that [lookups] offers. *)
Definition lookup_keys (entries : list (list string)) : list string :=
  entries ≫= take 1.

(** Number of times the "no" branch of a card presence filter yields a row
    whose customer is [cid]: once per card with an empty fingerprint, or
    once when the customer has no card. *)
Definition no_card_rows (db : Database) (cid : Z) : nat :=
  match cards_of db cid with
  | [] => 1
  | cs => length (filter (λ c, fingerprint c = "") cs)
  end.

(** ** Specification-side predicates *)

(** The no-card condition on a customer: no card at all, or some card with
    an empty fingerprint. *)
Definition no_card_condition (db : Database) (cid : Z) : Prop :=
  (∀ c, c ∈ card_table db → card_customer c ≠ cid) ∨
  (∃ c, c ∈ card_table db ∧ card_customer c = cid ∧ fingerprint c = "").

Definition has_subscription_with_status (db : Database) (cid : Z) (v : string)
  : Prop :=
  ∃ s, s ∈ subscription_table db ∧ subscription_customer s = cid ∧ status s = v.

Definition has_no_subscription (db : Database) (cid : Z) : Prop :=
  ∀ s, s ∈ subscription_table db → subscription_customer s ≠ cid.

(** The letters, in the words of the alphabet rather than by character
    codes. *)
Definition lowercase_letters : string := "abcdefghijklmnopqrstuvwxyz".
Definition uppercase_letters : string := "ABCDEFGHIJKLMNOPQRSTUVWXYZ".

(** [c] replaced by the character of [into] at the place where [c] stands
    in [from]; any other character is kept. *)
Fixpoint translate (from into : string) (c : ascii) : ascii :=
  match from, into with
  | String a from', String b into' =>
      if bool_decide (c = a) then b else translate from' into' c
  | _, _ => c
  end.

Fixpoint occurs_in (c : ascii) (s : string) : bool :=
  match s with
  | EmptyString => false
  | String c' rest => bool_decide (c = c') || occurs_in c rest
  end.

Definition is_letter (c : ascii) : bool :=
  occurs_in c lowercase_letters || occurs_in c uppercase_letters.

(** A word starts at position [i] of [x] when [i] is the first position or
    the character before it is not a letter. *)
Definition word_start_at (x : string) (i : nat) : bool :=
  match i with
  | O => true
  | S j =>
      match String.get j x with
      | Some before => negb (is_letter before)
      | None => true
      end
  end.

(** The character of a label that stands for the character [c] of the
    status: a space for an underscore, the capital of a letter that starts
    a word, the small letter of any other letter, and [c] itself
    otherwise. *)
Definition label_char (word_start : bool) (c : ascii) : ascii :=
  if bool_decide (c = "_"%char) then " "%char
  else if word_start then translate lowercase_letters uppercase_letters c
  else translate uppercase_letters lowercase_letters c.

(** [label] is the status [x] with underscores replaced by spaces and
    title-cased, character by character. *)
Definition is_title_label (x label : string) : Prop :=
  String.length label = String.length x ∧
  ∀ i c, String.get i x = Some c →
         String.get i label = Some (label_char (word_start_at x i) c).

(** The character [c] occurs in [s]. *)
Fixpoint str_has_char (c : ascii) (s : string) : bool :=
  match s with
  | EmptyString => false
  | String c' rest => bool_decide (c' = c) || str_has_char c rest
  end.

(** [sub] occurs in [s]. *)
Definition str_contains (s sub : string) : Prop :=
  ∃ pre post, s = pre +:+ sub +:+ post.

(** The condition under which a card presence filter with value [v] keeps
    a record whose customer is [cid]. *)
Definition card_selected (db : Database) (v : option string) (cid : Z) : Prop :=
  if decide (v = Some "yes") then ¬ no_card_condition db cid
  else if decide (v = Some "no") then no_card_condition db cid
  else True.

(** The condition under which the subscription status filter with value
    [v] keeps the customer [cid]. *)
Definition status_selected (db : Database) (v : option string) (cid : Z) : Prop :=
  if decide (v = Some "none") then has_no_subscription db cid
  else if truthy v then
    ∃ s, s ∈ subscription_table db ∧ subscription_customer s = cid ∧
         Some (status s) = v
  else True.

(** ** Sample data *)

Definition sample_db : Database := {|
  card_table :=
    [ {| card_pk := 1; card_customer := 10; fingerprint := "" |};
      {| card_pk := 2; card_customer := 10; fingerprint := "" |};
      {| card_pk := 3; card_customer := 11; fingerprint := "4mnS1RI2" |} ];
  subscription_table :=
    [ {| subscription_pk := 1; subscription_customer := 10; status := "past_due" |};
      {| subscription_pk := 2; subscription_customer := 11; status := "active" |};
      {| subscription_pk := 3; subscription_customer := 11; status := "past_due" |} ]
|}.

Definition sample_user : UserObj := {|
  user_pk := 1;
  user_attrs := {[ "username" := SStr "bob"; "email" := SStr "bob@example.com" ]}
|}.

Definition sample_customer (n : Z) : Customer :=
  {| pk := n; stripe_id := "cus_sample"; user := sample_user |}.

Definition sample_invoice (n : Z) : Invoice :=
  {| invoice_pk := n; customer := sample_customer n; invoice_attrs := ∅ |}.

(** An invoice that carries an ['email'] attribute of its own. *)
Definition invoice_with_email : Invoice :=
  {| invoice_pk := 7; customer := sample_customer 10;
     invoice_attrs := {[ "email" := SStr "billing@example.com" ]} |}.

(** An invoice of a purged customer: the customer's user is [None], which
    has none of the attributes of a user. *)
Definition purged_invoice : Invoice :=
  {| invoice_pk := 8;
     customer := {| pk := 30; stripe_id := "cus_purged";
                    user := {| user_pk := 0; user_attrs := ∅ |} |};
     invoice_attrs := ∅ |}.

Definition sample_filter (v : string) : SimpleListFilter :=
  {| used_parameters := {[ "has_card" := v; "sub_status" := v ]} |}.

Definition unselected_filter : SimpleListFilter := {| used_parameters := ∅ |}.

Definition sample_request : HttpRequest := {| GET := ∅ |}.

Definition sample_opts : Options := {|
  local_fields := [ {| name := "id" |}; {| name := "stripe_id" |} ];
  local_many_to_many := []
|}.

Definition sample_action : Action :=
  {| action_name := "delete_selected";
     short_description := "Delete selected %(verbose_name_plural)s" |}.

(** An admin whose inherited mapping holds the bulk delete action. *)
Definition sample_admin : ModelAdmin := {|
  opts := sample_opts;
  super_get_actions := λ _, {[ "delete_selected" := sample_action ]}
|}.

(** An admin whose inherited mapping is empty for a pop-up request, as the
    framework's [get_actions] answers one. *)
Definition popup_aware_admin : ModelAdmin := {|
  opts := sample_opts;
  super_get_actions := λ request,
    if bool_decide (is_Some (GET request !! "_popup")) then ∅
    else {[ "delete_selected" := sample_action ]}
|}.

Definition popup_request : HttpRequest := {| GET := {[ "_popup" := "1" ]} |}.

Definition sample_user_model : UserModel := {|
  USERNAME_FIELD := "username";
  meta_fields := [ {| name := "id" |}; {| name := "username" |}; {| name := "email" |} ]
|}.

(** A customer (20) with an unusable card and a usable one. *)
Definition mixed_db : Database := {|
  card_table :=
    [ {| card_pk := 1; card_customer := 20; fingerprint := "" |};
      {| card_pk := 2; card_customer := 20; fingerprint := "Xt5EWLLDS7FJjR1c" |} ];
  subscription_table :=
    [ {| subscription_pk := 1; subscription_customer := 20; status := "active" |};
      {| subscription_pk := 2; subscription_customer := 20; status := "canceled" |} ]
|}.

Definition status_filter (v : string) : SimpleListFilter :=
  {| used_parameters := {[ "sub_status" := v ]} |}.

Definition email_user_model : UserModel := {|
  USERNAME_FIELD := "email";
  meta_fields := [ {| name := "id" |}; {| name := "email" |} ]
|}.

(** * Properties *)

(** ** Evaluation on the sample data *)

Example title_past_due (unicode_title : string → string) :
  str_title unicode_title (str_replace "_" " " "past_due") = "Past Due".
Proof. reflexivity. Qed.

Example title_mixed_case (unicode_title : string → string) :
  str_title unicode_title "hELLO wORLD 3a_b's" = "Hello World 3A_B'S".
Proof. reflexivity. Qed.

Example distinct_keeps_first_occurrences :
  qs_distinct ["past_due"; "active"; "past_due"; "trialing"; "active"]
  = ["past_due"; "active"; "trialing"].
Proof. vm_compute. reflexivity. Qed.

Example has_card_no_sample :
  pk <$> CustomerHasCardListFilter.queryset sample_db (sample_filter "no")
           sample_request (sample_customer <$> [10; 11; 12])
  = [10; 10; 12].
Proof. vm_compute. reflexivity. Qed.

Example has_card_yes_sample :
  pk <$> CustomerHasCardListFilter.queryset sample_db (sample_filter "yes")
           sample_request (sample_customer <$> [10; 11; 12])
  = [11].
Proof. vm_compute. reflexivity. Qed.

Example sub_status_none_sample :
  pk <$> CustomerSubscriptionStatusListFilter.queryset sample_db
           (sample_filter "none") sample_request
           (sample_customer <$> [10; 11; 12; 12])
  = [12].
Proof. vm_compute. reflexivity. Qed.

Example sub_status_past_due_sample :
  pk <$> CustomerSubscriptionStatusListFilter.queryset sample_db
           (sample_filter "past_due") sample_request
           (sample_customer <$> [10; 11; 12])
  = [10; 11].
Proof. vm_compute. reflexivity. Qed.

Example lookups_sample (unicode_title : string → string) :
  CustomerSubscriptionStatusListFilter.lookups unicode_title sample_db
    unselected_filter sample_request sample_admin
  = [ ["past_due"; "Past Due"]; ["active"; "Active"];
      ["none"; "No Subscription"] ].
Proof. vm_compute. reflexivity. Qed.

Example invoice_has_card_no_sample :
  InvoiceCustomerHasCardListFilter.queryset sample_db (sample_filter "no")
    sample_request (sample_invoice <$> [10; 11; 12])
  = Ok (sample_invoice <$> [10; 10; 12]).
Proof. vm_compute. reflexivity. Qed.

Example invoice_has_card_yes_sample :
  InvoiceCustomerHasCardListFilter.queryset sample_db (sample_filter "yes")
    sample_request (sample_invoice <$> [10; 11; 12])
  = Raise OperationalError.
Proof. vm_compute. reflexivity. Qed.

Example customer_user_sample :
  customer_user sample_user_model (sample_invoice 10) = Ok "bob <>".
Proof. vm_compute. reflexivity. Qed.

Example customer_user_invoice_email :
  customer_user sample_user_model invoice_with_email
  = Ok "bob <billing@example.com>".
Proof. vm_compute. reflexivity. Qed.

Example search_fields_sample :
  CustomerAdmin.search_fields sample_user_model
  = PyTuple [ PyList [ PyStr "stripe_id"; PyStr "user__username";
                       PyStr "user__email" ] ].
Proof. vm_compute. reflexivity. Qed.

(** ** Permission overrides *)

(** C1: for every request and every object (also [None]), the add and
    delete permission checks of [ReadOnlyAdmin] and of [ReadOnlyInline]
    return [False], and so do those of every registered admin class and of
    every inline class, which inherit them. *)
Theorem add_delete_permission_disabled :
  ∀ (Obj : Type) (request : HttpRequest) (obj : option Obj),
    (∀ self : ModelAdmin,
       ReadOnlyAdmin.has_add_permission self request obj = false ∧
       ReadOnlyAdmin.has_delete_permission self request obj = false) ∧
    (∀ self : InlineModelAdmin,
       ReadOnlyInline.has_add_permission self request obj = false ∧
       ReadOnlyInline.has_delete_permission self request obj = false) ∧
    (∀ (cls : AdminClass) (self : ModelAdmin),
       has_add_permission_of cls self request obj = false ∧
       has_delete_permission_of cls self request obj = false) ∧
    (∀ (cls : InlineClass) (self : InlineModelAdmin),
       inline_has_add_permission_of cls self request obj = false ∧
       inline_has_delete_permission_of cls self request obj = false).
Proof.
  intros Obj request obj. repeat split; try destruct cls; reflexivity.
Qed.

(** ** Read-only fields *)

Lemma elem_of_names_set (fs ms : list Field) (x : string) :
  x ∈ elements (list_to_set ((name <$> fs) ++ (name <$> ms)) : gset string)
  ↔ x ∈ name <$> fs ∨ x ∈ name <$> ms.
Proof.
  rewrite elem_of_elements, elem_of_list_to_set. apply elem_of_app.
Qed.

(** C2: for every request and every object, a name is in the list returned
    by [get_readonly_fields] of [ReadOnlyAdmin] (of [ReadOnlyInline], and of
    the classes deriving from them) exactly when it is the name of a local
    field or of a local many-to-many field of the model; the list has no
    repetition. *)
Theorem readonly_fields_are_all_fields :
  ∀ (Obj : Type) (request : HttpRequest) (obj : option Obj),
    (∀ (self : ModelAdmin) (x : string),
       x ∈ ReadOnlyAdmin.get_readonly_fields self request obj
       ↔ x ∈ name <$> local_fields (opts self) ∨
         x ∈ name <$> local_many_to_many (opts self)) ∧
    (∀ (self : InlineModelAdmin) (x : string),
       x ∈ ReadOnlyInline.get_readonly_fields self request obj
       ↔ x ∈ name <$> local_fields (inline_opts self) ∨
         x ∈ name <$> local_many_to_many (inline_opts self)) ∧
    (∀ (cls : AdminClass) (self : ModelAdmin) (x : string),
       x ∈ get_readonly_fields_of cls self request obj
       ↔ x ∈ name <$> local_fields (opts self) ∨
         x ∈ name <$> local_many_to_many (opts self)) ∧
    (∀ (cls : InlineClass) (self : InlineModelAdmin) (x : string),
       x ∈ inline_get_readonly_fields_of cls self request obj
       ↔ x ∈ name <$> local_fields (inline_opts self) ∨
         x ∈ name <$> local_many_to_many (inline_opts self)) ∧
    (∀ self : ModelAdmin,
       NoDup (ReadOnlyAdmin.get_readonly_fields self request obj)) ∧
    (∀ self : InlineModelAdmin,
       NoDup (ReadOnlyInline.get_readonly_fields self request obj)).
Proof.
  intros Obj request obj. split_and!.
  - intros self x. apply elem_of_names_set.
  - intros self x. apply elem_of_names_set.
  - intros cls self x. destruct cls; apply elem_of_names_set.
  - intros cls self x. destruct cls; apply elem_of_names_set.
  - intros self. apply NoDup_elements.
  - intros self. apply NoDup_elements.
Qed.

(** ** Actions *)

Lemma py_del_Ok {V} (k : string) (d d' : gmap string V) :
  py_del k d = Ok d' → is_Some (d !! k) ∧ d' = delete k d.
Proof.
  unfold py_del. destruct (d !! k) as [v|] eqn:Hk; intros H; [|discriminate].
  injection H as Hd. rewrite <- Hd. eauto.
Qed.

Lemma py_del_present {V} (k : string) (d : gmap string V) :
  is_Some (d !! k) → py_del k d = Ok (delete k d).
Proof. intros [v Hv]. unfold py_del. by rewrite Hv. Qed.

Lemma py_del_absent {V} (k : string) (d : gmap string V) :
  d !! k = None → py_del k d = Raise (KeyError k).
Proof. intros Hk. unfold py_del. by rewrite Hk. Qed.

Lemma get_actions_absent (self : ModelAdmin) (request : HttpRequest) :
  super_get_actions self request !! "delete_selected" = None →
  ReadOnlyAdmin.get_actions self request = Raise (KeyError "delete_selected").
Proof. intros Hk. unfold ReadOnlyAdmin.get_actions. by apply py_del_absent. Qed.

Lemma get_actions_of_base (cls : AdminClass) :
  get_actions_of cls = ReadOnlyAdmin.get_actions.
Proof. by destruct cls. Qed.

(** C3: for every request, the mapping that [get_actions] returns, in
    [ReadOnlyAdmin] and in every registered admin class, does not contain
    the key ['delete_selected']; its other entries are the inherited
    ones. *)
Theorem delete_selected_absent :
  ∀ (cls : AdminClass) (self : ModelAdmin) (request : HttpRequest)
    (actions : gmap string Action),
    get_actions_of cls self request = Ok actions →
    actions !! "delete_selected" = None ∧
    ("delete_selected" ∉ dom actions) ∧
    ReadOnlyAdmin.get_actions self request = Ok actions ∧
    ∀ k, k ≠ "delete_selected" →
         actions !! k = super_get_actions self request !! k.
Proof.
  intros cls self request actions. rewrite get_actions_of_base.
  intros H. destruct (py_del_Ok _ _ _ H) as [Hsome Hdel].
  rewrite Hdel in *. split; [|split; [|split]].
  - apply lookup_delete_eq.
  - apply not_elem_of_dom, lookup_delete_eq.
  - done.
  - intros k Hk. by rewrite lookup_delete_ne.
Qed.

Lemma delete_selected_absent_witness :
  ∃ actions,
    get_actions_of cls_CustomerAdmin sample_admin sample_request = Ok actions ∧
    actions !! "delete_selected" = None.
Proof.
  exists (delete "delete_selected" (super_get_actions sample_admin sample_request)).
  assert (H : get_actions_of cls_CustomerAdmin sample_admin sample_request
              = Ok (delete "delete_selected"
                      (super_get_actions sample_admin sample_request)))
    by (vm_compute; reflexivity).
  split; [exact H|].
  exact (proj1 (delete_selected_absent cls_CustomerAdmin sample_admin
                  sample_request _ H)).
Defined.

(** C7, on the code: on a pop-up request, for which the inherited mapping
    has no ['delete_selected'] entry, [get_actions] does not return
    normally: the unguarded [del] raises [KeyError('delete_selected')] and
    no mapping is returned. *)
Lemma get_actions_raises_on_popup :
  ReadOnlyAdmin.get_actions popup_aware_admin popup_request
    = Raise (KeyError "delete_selected") ∧
  ¬ ∃ actions,
      ReadOnlyAdmin.get_actions popup_aware_admin popup_request = Ok actions.
Proof.
  assert (H : ReadOnlyAdmin.get_actions popup_aware_admin popup_request
              = Raise (KeyError "delete_selected"))
    by (vm_compute; reflexivity).
  split; [exact H|]. intros [actions Hactions].
  rewrite H in Hactions. discriminate.
Qed.

(** ** Search fields *)

Lemma user_search_fields_unfold (User : UserModel) :
  user_search_fields User
  = ("user__" +:+ USERNAME_FIELD User)
    :: (if bool_decide ("email" ∈ name <$> meta_fields User)
        then ["user__email"] else []).
Proof. unfold user_search_fields. by case_bool_decide. Qed.

(** C6, on the code: the value bound to [CustomerAdmin.search_fields] is a
    one-element tuple whose only item is the list of ["stripe_id"] followed
    by the user search fields; it is not that list, which is what the
    sibling classes bind. *)
Theorem customer_admin_search_fields_wrapped :
  ∀ User : UserModel,
    CustomerAdmin.search_fields User
      = PyTuple [ PyList (PyStr <$> "stripe_id" :: user_search_fields User) ] ∧
    CustomerAdmin.search_fields User
      ≠ PyList (PyStr <$> "stripe_id" :: user_search_fields User) ∧
    (∃ items, ChargeAdmin.search_fields User = PyList items) ∧
    (∃ items, EventAdmin.search_fields User = PyList items) ∧
    (∃ items, InvoiceAdmin.search_fields User = PyList items).
Proof.
  intros User. unfold CustomerAdmin.search_fields, ChargeAdmin.search_fields,
    EventAdmin.search_fields, InvoiceAdmin.search_fields.
  split; [reflexivity|]. split; [discriminate|].
  split; [|split]; eexists; reflexivity.
Qed.

(** ** Query-set operations *)

Lemma elem_of_cards_of (db : Database) (cid : Z) (c : Card) :
  c ∈ cards_of db cid ↔ c ∈ card_table db ∧ card_customer c = cid.
Proof. unfold cards_of. rewrite list_elem_of_filter. tauto. Qed.

Lemma cards_of_nil (db : Database) (cid : Z) :
  cards_of db cid = [] ↔ ∀ c, c ∈ card_table db → card_customer c ≠ cid.
Proof.
  split.
  - intros Hnil c Hc Hcid.
    assert (Hin : c ∈ cards_of db cid) by (by apply elem_of_cards_of).
    rewrite Hnil in Hin. by apply not_elem_of_nil in Hin.
  - intros Hall. apply elem_of_nil_inv. intros c Hc.
    apply elem_of_cards_of in Hc as [Hc Hcid]. by apply (Hall c).
Qed.

Lemma elem_of_left_outer_join_card (db : Database) (cid : Z) (j : option Card) :
  j ∈ left_outer_join_card db cid
  ↔ (j = None ∧ cards_of db cid = []) ∨
    (∃ c, j = Some c ∧ c ∈ cards_of db cid).
Proof.
  unfold left_outer_join_card. destruct (cards_of db cid) as [|c0 cs] eqn:Hcs.
  - rewrite list_elem_of_singleton. split.
    + intros ->. by left.
    + intros [[-> _]|(c & _ & Hc)]; [done|]. by apply not_elem_of_nil in Hc.
  - rewrite list_elem_of_fmap. split.
    + intros (c & -> & Hc). right. eauto.
    + intros [[_ Hnil]|(c & -> & Hc)]; [discriminate|]. eauto.
Qed.

Lemma elem_of_qs_filter {Row} (db : Database) (rel : Row → Z) (q : Q)
    (queryset : list Row) (r : Row) :
  r ∈ qs_filter db rel q queryset
  ↔ r ∈ queryset ∧
    ∃ j, j ∈ left_outer_join_card db (rel r) ∧ holds_on q j = true.
Proof.
  unfold qs_filter. rewrite list_elem_of_bind. split.
  - intros (row & Hr & Hrow). apply list_elem_of_fmap in Hr as (j & -> & Hj).
    apply list_elem_of_filter in Hj as [Hq Hj]. eauto.
  - intros (Hr & j & Hj & Hq). exists r. split; [|done].
    apply list_elem_of_fmap. exists j. split; [done|].
    by apply list_elem_of_filter.
Qed.

Lemma elem_of_qs_exclude {Row} (db : Database) (rel : Row → Z) (q : Q)
    (queryset : list Row) (r : Row) :
  r ∈ qs_exclude db rel q queryset
  ↔ r ∈ queryset ∧ matched_by db q (rel r) = false.
Proof. unfold qs_exclude. rewrite list_elem_of_filter. tauto. Qed.

(** On a joined row, the disjunction of the two lookups holds exactly for
    the all-NULL row and for a card with an empty fingerprint. *)
Lemma joined_no_card (db : Database) (cid : Z) :
  (∃ j, j ∈ left_outer_join_card db cid ∧
        holds_on (Q_or (Q_card_fingerprint "") Q_card_None) j = true)
  ↔ no_card_condition db cid.
Proof.
  unfold no_card_condition. split.
  - intros (j & Hj & Hq). apply elem_of_left_outer_join_card in Hj.
    destruct Hj as [[-> Hnil]|(c & -> & Hc)].
    + left. by apply cards_of_nil.
    + right. simpl in Hq. rewrite orb_false_r in Hq.
      apply bool_decide_eq_true in Hq.
      apply elem_of_cards_of in Hc as [Hc Hcid]. eauto.
  - intros [Hnone|(c & Hc & Hcid & Hfp)].
    + exists None. split; [|done].
      apply elem_of_left_outer_join_card. left. split; [done|].
      by apply cards_of_nil.
    + exists (Some c). split.
      * apply elem_of_left_outer_join_card. right. exists c. split; [done|].
        by apply elem_of_cards_of.
      * simpl. rewrite orb_false_r. by apply bool_decide_eq_true.
Qed.

Lemma matched_by_no_card (db : Database) (cid : Z) :
  matched_by db (Q_or (Q_card_fingerprint "") Q_card_None) cid = true
  ↔ no_card_condition db cid.
Proof.
  unfold no_card_condition. simpl.
  rewrite orb_true_iff, !bool_decide_eq_true, Exists_exists, cards_of_nil.
  split.
  - intros [(c & Hc & Hfp)|Hnone]; [right|by left].
    apply elem_of_cards_of in Hc as [Hc Hcid]. eauto.
  - intros [Hnone|(c & Hc & Hcid & Hfp)]; [by right|left].
    exists c. split; [|done]. by apply elem_of_cards_of.
Qed.

Lemma not_matched_by_no_card (db : Database) (cid : Z) :
  matched_by db (Q_or (Q_card_fingerprint "") Q_card_None) cid = false
  ↔ ¬ no_card_condition db cid.
Proof.
  rewrite <- matched_by_no_card.
  destruct (matched_by db _ cid); split; intros H; congruence.
Qed.

(** ** Card presence filters *)

(** C4, on the code: the card presence filter on customers returns, for
    ["no"], exactly the records of the queryset whose customer has no card
    or has a card with an empty fingerprint and, for ["yes"], exactly the
    records of the queryset that do not satisfy that condition; the filter
    on invoices does so for ["no"], whereas for ["yes"] evaluating its
    queryset raises [OperationalError] and returns no record. *)
Theorem card_presence_filters :
  ∀ (db : Database) (self : SimpleListFilter) (request : HttpRequest),
    (∀ (queryset : list Customer) (r : Customer),
       (CustomerHasCardListFilter.value self = Some "no" →
          r ∈ CustomerHasCardListFilter.queryset db self request queryset
          ↔ r ∈ queryset ∧ no_card_condition db (pk r)) ∧
       (CustomerHasCardListFilter.value self = Some "yes" →
          r ∈ CustomerHasCardListFilter.queryset db self request queryset
          ↔ r ∈ queryset ∧ ¬ no_card_condition db (pk r))) ∧
    (∀ queryset : list Invoice,
       (InvoiceCustomerHasCardListFilter.value self = Some "no" →
          ∃ rows,
            InvoiceCustomerHasCardListFilter.queryset db self request queryset
            = Ok rows ∧
            ∀ r, r ∈ rows
                 ↔ r ∈ queryset ∧ no_card_condition db (pk (customer r))) ∧
       (InvoiceCustomerHasCardListFilter.value self = Some "yes" →
          InvoiceCustomerHasCardListFilter.queryset db self request queryset
          = Raise OperationalError)).
Proof.
  intros db self request. split; intros queryset.
  - intros r. split; intros Hv.
    + unfold CustomerHasCardListFilter.queryset. rewrite Hv.
      rewrite bool_decide_eq_false_2 by discriminate.
      rewrite bool_decide_eq_true_2 by reflexivity.
      by rewrite elem_of_qs_filter, joined_no_card.
    + unfold CustomerHasCardListFilter.queryset. rewrite Hv.
      rewrite bool_decide_eq_true_2 by reflexivity.
      by rewrite elem_of_qs_exclude, not_matched_by_no_card.
  - split; intros Hv.
    + unfold InvoiceCustomerHasCardListFilter.queryset. rewrite Hv.
      rewrite bool_decide_eq_false_2 by discriminate.
      rewrite bool_decide_eq_true_2 by reflexivity.
      eexists. split; [reflexivity|]. intros r.
      by rewrite elem_of_qs_filter, joined_no_card.
    + unfold InvoiceCustomerHasCardListFilter.queryset. rewrite Hv.
      rewrite bool_decide_eq_true_2 by reflexivity. reflexivity.
Qed.

Lemma card_presence_filters_witness :
  CustomerHasCardListFilter.value (sample_filter "no") = Some "no" ∧
  (sample_customer 12
     ∈ CustomerHasCardListFilter.queryset sample_db (sample_filter "no")
         sample_request (sample_customer <$> [10; 11; 12])
   ↔ sample_customer 12 ∈ sample_customer <$> [10; 11; 12] ∧
     no_card_condition sample_db (pk (sample_customer 12))) ∧
  InvoiceCustomerHasCardListFilter.value (sample_filter "yes") = Some "yes" ∧
  InvoiceCustomerHasCardListFilter.queryset sample_db (sample_filter "yes")
    sample_request (sample_invoice <$> [10; 11; 12])
  = Raise OperationalError.
Proof.
  assert (Hno : CustomerHasCardListFilter.value (sample_filter "no") = Some "no")
    by (vm_compute; reflexivity).
  assert (Hyes : InvoiceCustomerHasCardListFilter.value (sample_filter "yes")
                 = Some "yes")
    by (vm_compute; reflexivity).
  split; [exact Hno|]. split.
  - exact (proj1 (proj1 (card_presence_filters sample_db (sample_filter "no")
                           sample_request) _ _) Hno).
  - split; [exact Hyes|].
    exact (proj2 (proj2 (card_presence_filters sample_db (sample_filter "yes")
                           sample_request) _) Hyes).
Defined.

(** ** Subscription status filter *)

Lemma elem_of_subscriptions_of (db : Database) (cid : Z) (s : Subscription) :
  s ∈ subscriptions_of db cid
  ↔ s ∈ subscription_table db ∧ subscription_customer s = cid.
Proof. unfold subscriptions_of. rewrite list_elem_of_filter. tauto. Qed.

Lemma subscriptions_of_nil (db : Database) (cid : Z) :
  subscriptions_of db cid = [] ↔ has_no_subscription db cid.
Proof.
  unfold has_no_subscription. split.
  - intros Hnil s Hs Hcid.
    assert (Hin : s ∈ subscriptions_of db cid)
      by (by apply elem_of_subscriptions_of).
    rewrite Hnil in Hin. by apply not_elem_of_nil in Hin.
  - intros Hall. apply elem_of_nil_inv. intros s Hs.
    apply elem_of_subscriptions_of in Hs as [Hs Hcid]. by apply (Hall s).
Qed.

(** A row of the queryset is counted at least once. *)
Lemma multiplicity_pos `{EqDecision Row} (queryset : list Row) (row : Row) :
  row ∈ queryset → length (filter (λ r, r = row) queryset) ≠ 0%nat.
Proof.
  intros Hrow Hlen. apply nil_length_inv in Hlen.
  assert (Hin : row ∈ filter (λ r, r = row) queryset)
    by (by apply list_elem_of_filter).
  rewrite Hlen in Hin. by apply not_elem_of_nil in Hin.
Qed.

Lemma elem_of_count_zero `{EqDecision Row} (db : Database) (rel : Row → Z)
    (queryset : list Row) (r : Row) :
  r ∈ filter_subs 0 (annotate_count_subscription db rel queryset)
  ↔ r ∈ queryset ∧ has_no_subscription db (rel r).
Proof.
  unfold filter_subs, annotate_count_subscription.
  rewrite <- subscriptions_of_nil. split.
  - intros Hr. apply list_elem_of_fmap in Hr as ([row n] & -> & Hrn).
    apply list_elem_of_filter in Hrn as [Hn Hrn]. simpl in *.
    apply list_elem_of_fmap in Hrn as (row' & Heq & Hrow').
    injection Heq as Hrow Hcount. subst row.
    rewrite elem_of_remove_dups in Hrow'.
    split; [exact Hrow'|]. apply nil_length_inv.
    pose proof (multiplicity_pos queryset row' Hrow') as Hpos. nia.
  - intros [Hr Hnil]. apply list_elem_of_fmap. exists (r, 0%nat).
    split; [done|]. apply list_elem_of_filter. split; [done|].
    apply list_elem_of_fmap. exists r. split.
    + rewrite Hnil. simpl. f_equal. lia.
    + by apply elem_of_remove_dups.
Qed.

Lemma elem_of_distinct_from `{EqDecision A} (seen l : list A) (x : A) :
  x ∈ distinct_from seen l ↔ x ∈ l ∧ x ∉ seen.
Proof.
  revert seen. induction l as [|y rest IH]; intros seen; simpl.
  - split; [intros H; by apply not_elem_of_nil in H|].
    intros [H _]. by apply not_elem_of_nil in H.
  - destruct (decide (y ∈ seen)) as [Hy|Hy].
    + rewrite IH, elem_of_cons. split; [tauto|].
      intros [[->|Hx] Hs]; [done|tauto].
    + rewrite !elem_of_cons, IH, elem_of_cons. split.
      * intros [->|[Hx Hs]]; [tauto|]. split; [tauto|]. tauto.
      * intros [[->|Hx] Hs]; [by left|].
        destruct (decide (x = y)) as [->|Hne]; [by left|]. right. tauto.
Qed.

Lemma NoDup_distinct_from `{EqDecision A} (seen l : list A) :
  NoDup (distinct_from seen l).
Proof.
  revert seen. induction l as [|y rest IH]; intros seen; simpl.
  - apply NoDup_nil_2.
  - destruct (decide (y ∈ seen)) as [Hy|Hy]; [apply IH|].
    apply NoDup_cons. split; [|apply IH].
    rewrite elem_of_distinct_from. intros [_ Hnot]. apply Hnot.
    apply list_elem_of_here.
Qed.

Lemma elem_of_qs_distinct `{EqDecision A} (l : list A) (x : A) :
  x ∈ qs_distinct l ↔ x ∈ l.
Proof.
  unfold qs_distinct. rewrite elem_of_distinct_from. split; [tauto|].
  intros Hx. split; [done|]. apply not_elem_of_nil.
Qed.

Lemma NoDup_qs_distinct `{EqDecision A} (l : list A) : NoDup (qs_distinct l).
Proof. apply NoDup_distinct_from. Qed.

Lemma elem_of_customers_with_status (db : Database) (v : option string)
    (cid : Z) :
  cid ∈ customers_with_status db v
  ↔ ∃ s, s ∈ subscription_table db ∧ subscription_customer s = cid ∧
         Some (status s) = v.
Proof.
  unfold customers_with_status.
  rewrite elem_of_qs_distinct, list_elem_of_fmap. split.
  - intros (s & -> & Hs). apply list_elem_of_filter in Hs as [Hv Hs]. eauto.
  - intros (s & Hs & <- & Hv). exists s. split; [done|].
    by apply list_elem_of_filter.
Qed.

(** C5: for every customer queryset, the subscription status filter with
    selected value ["none"] returns exactly the customers of the queryset
    with zero subscriptions, and with any other non-empty selected value
    [v] exactly the customers of the queryset that have at least one
    subscription whose status equals [v]. *)
Theorem subscription_status_filter :
  ∀ (db : Database) (self : SimpleListFilter) (request : HttpRequest)
    (queryset : list Customer) (r : Customer),
    (CustomerSubscriptionStatusListFilter.value self = Some "none" →
       r ∈ CustomerSubscriptionStatusListFilter.queryset db self request queryset
       ↔ r ∈ queryset ∧ has_no_subscription db (pk r)) ∧
    (∀ v : string,
       CustomerSubscriptionStatusListFilter.value self = Some v →
       v ≠ "none" → v ≠ "" →
       r ∈ CustomerSubscriptionStatusListFilter.queryset db self request queryset
       ↔ r ∈ queryset ∧ has_subscription_with_status db (pk r) v).
Proof.
  intros db self request queryset r. split.
  - intros Hv. unfold CustomerSubscriptionStatusListFilter.queryset.
    rewrite Hv, bool_decide_eq_true_2 by reflexivity.
    apply elem_of_count_zero.
  - intros v Hv Hnone Hempty.
    unfold CustomerSubscriptionStatusListFilter.queryset. rewrite Hv.
    rewrite bool_decide_eq_false_2 by congruence.
    simpl. rewrite bool_decide_eq_true_2 by done.
    unfold qs_filter_pk_in. rewrite list_elem_of_filter, elem_of_customers_with_status.
    unfold has_subscription_with_status. split.
    + intros [(s & Hs & Hcid & Hst) Hr]. split; [done|].
      exists s. split_and!; congruence.
    + intros [Hr (s & Hs & Hcid & Hst)]. split; [|done].
      exists s. split_and!; congruence.
Qed.

Lemma subscription_status_filter_witness :
  CustomerSubscriptionStatusListFilter.value (sample_filter "past_due")
    = Some "past_due" ∧
  (sample_customer 10
     ∈ CustomerSubscriptionStatusListFilter.queryset sample_db
         (sample_filter "past_due") sample_request
         (sample_customer <$> [10; 11; 12])
   ↔ sample_customer 10 ∈ sample_customer <$> [10; 11; 12] ∧
     has_subscription_with_status sample_db (pk (sample_customer 10)) "past_due") ∧
  CustomerSubscriptionStatusListFilter.value (sample_filter "none")
    = Some "none" ∧
  (sample_customer 12
     ∈ CustomerSubscriptionStatusListFilter.queryset sample_db
         (sample_filter "none") sample_request
         (sample_customer <$> [10; 11; 12])
   ↔ sample_customer 12 ∈ sample_customer <$> [10; 11; 12] ∧
     has_no_subscription sample_db (pk (sample_customer 12))).
Proof.
  assert (Hv : CustomerSubscriptionStatusListFilter.value
                 (sample_filter "past_due") = Some "past_due")
    by (vm_compute; reflexivity).
  assert (Hn : CustomerSubscriptionStatusListFilter.value
                 (sample_filter "none") = Some "none")
    by (vm_compute; reflexivity).
  split; [exact Hv|]. split.
  - refine (proj2 (subscription_status_filter sample_db
                     (sample_filter "past_due") sample_request _ _)
              "past_due" Hv _ _); discriminate.
  - split; [exact Hn|].
    exact (proj1 (subscription_status_filter sample_db (sample_filter "none")
                    sample_request _ _) Hn).
Defined.

(** ** No selected value *)

(** C8: for every queryset, each of the three list filters returns the
    records of the input queryset unchanged when no value is selected: the
    card presence filters for [None] and for any value other than ["yes"]
    and ["no"], the subscription status filter for [None]. *)
Theorem filters_identity_when_unselected :
  ∀ (db : Database) (self : SimpleListFilter) (request : HttpRequest),
    (CustomerHasCardListFilter.value self ≠ Some "yes" →
     CustomerHasCardListFilter.value self ≠ Some "no" →
     ∀ queryset : list Customer,
       CustomerHasCardListFilter.queryset db self request queryset = queryset) ∧
    (InvoiceCustomerHasCardListFilter.value self ≠ Some "yes" →
     InvoiceCustomerHasCardListFilter.value self ≠ Some "no" →
     ∀ queryset : list Invoice,
       InvoiceCustomerHasCardListFilter.queryset db self request queryset
       = Ok queryset) ∧
    (CustomerSubscriptionStatusListFilter.value self = None →
     ∀ queryset : list Customer,
       CustomerSubscriptionStatusListFilter.queryset db self request queryset
       = queryset).
Proof.
  intros db self request. split; [|split].
  - intros Hyes Hno queryset. unfold CustomerHasCardListFilter.queryset.
    by rewrite !bool_decide_eq_false_2.
  - intros Hyes Hno queryset. unfold InvoiceCustomerHasCardListFilter.queryset.
    by rewrite !bool_decide_eq_false_2.
  - intros Hv queryset. unfold CustomerSubscriptionStatusListFilter.queryset.
    rewrite Hv. by rewrite bool_decide_eq_false_2.
Qed.

Lemma filters_identity_when_unselected_witness :
  CustomerHasCardListFilter.queryset sample_db unselected_filter sample_request
    (sample_customer <$> [10; 11; 12])
  = sample_customer <$> [10; 11; 12] ∧
  InvoiceCustomerHasCardListFilter.queryset sample_db (sample_filter "maybe")
    sample_request (sample_invoice <$> [10; 11; 12])
  = Ok (sample_invoice <$> [10; 11; 12]) ∧
  CustomerSubscriptionStatusListFilter.queryset sample_db unselected_filter
    sample_request (sample_customer <$> [10; 11; 12])
  = sample_customer <$> [10; 11; 12].
Proof.
  split; [|split].
  - apply (proj1 (filters_identity_when_unselected sample_db unselected_filter
                    sample_request)); vm_compute; discriminate.
  - apply (proj1 (proj2 (filters_identity_when_unselected sample_db
                           (sample_filter "maybe") sample_request)));
      vm_compute; discriminate.
  - apply (proj2 (proj2 (filters_identity_when_unselected sample_db
                           unselected_filter sample_request))).
    vm_compute. reflexivity.
Defined.

(** ** The Customer column *)

(** C9, on the code: for the invoice of a customer whose user is [None],
    [customer_user] returns no string: reading [USERNAME_FIELD] from the
    user raises [AttributeError], so the claim does not hold for every
    invoice object. *)
Theorem customer_user_raises_without_user :
  customer_user sample_user_model purged_invoice
    = Raise (AttributeError "username") ∧
  ¬ (∀ obj : Invoice, ∃ text, customer_user sample_user_model obj = Ok text).
Proof.
  assert (H : customer_user sample_user_model purged_invoice
              = Raise (AttributeError "username"))
    by (vm_compute; reflexivity).
  split; [exact H|]. intros Hall.
  destruct (Hall purged_invoice) as [text Htext].
  rewrite H in Htext. discriminate.
Qed.

(** X25: for an invoice whose customer's user has the text [username] as
    its [USERNAME_FIELD] attribute, [customer_user] returns
    ["<username> <<email>>"] where the e-mail part is the invoice's own
    ['email'] attribute: empty when the invoice has none, the text when it
    is a text, and ["None"] when it is [None]; the result is the same for
    any user with that username, whatever its e-mail address. *)
Theorem customer_user_format :
  ∀ (User : UserModel) (obj : Invoice) (username : string),
    user_attrs (user (customer obj)) !! USERNAME_FIELD User
      = Some (SStr username) →
    (invoice_attrs obj !! "email" = None →
     customer_user User obj = Ok (username +:+ " <>")) ∧
    (∀ email : string,
       invoice_attrs obj !! "email" = Some (SStr email) →
       customer_user User obj = Ok (username +:+ " <" +:+ email +:+ ">")) ∧
    (invoice_attrs obj !! "email" = Some SNone →
     customer_user User obj = Ok (username +:+ " <None>")) ∧
    (∀ other : UserObj,
       user_attrs other !! USERNAME_FIELD User = Some (SStr username) →
       customer_user User
         {| invoice_pk := invoice_pk obj;
            customer := {| pk := pk (customer obj);
                           stripe_id := stripe_id (customer obj);
                           user := other |};
            invoice_attrs := invoice_attrs obj |}
       = customer_user User obj).
Proof.
  intros User obj username Hname.
  assert (Hres : customer_user User obj
                 = Ok (username +:+ " <" +:+
                       py_str (getattr_invoice obj "email" (SStr "")) +:+ ">")).
  { unfold customer_user, getattr_user. rewrite Hname. reflexivity. }
  split; [|split; [|split]].
  - intros Hnone. rewrite Hres. unfold getattr_invoice. rewrite Hnone.
    reflexivity.
  - intros email Hemail. rewrite Hres. unfold getattr_invoice. rewrite Hemail.
    reflexivity.
  - intros Hnone. rewrite Hres. unfold getattr_invoice. rewrite Hnone.
    reflexivity.
  - intros other Hother. rewrite Hres.
    unfold customer_user, getattr_user. simpl. rewrite Hother. reflexivity.
Qed.

Lemma customer_user_format_witness :
  user_attrs (user (customer invoice_with_email))
    !! USERNAME_FIELD sample_user_model = Some (SStr "bob") ∧
  customer_user sample_user_model invoice_with_email
  = Ok "bob <billing@example.com>".
Proof.
  assert (H : user_attrs (user (customer invoice_with_email))
                !! USERNAME_FIELD sample_user_model = Some (SStr "bob"))
    by (vm_compute; reflexivity).
  split; [exact H|].
  refine (proj1 (proj2 (customer_user_format sample_user_model
                          invoice_with_email "bob" H))
            "billing@example.com" _).
  vm_compute. reflexivity.
Defined.

(** ** Lookups of the subscription status filter *)

Lemma str_replace_length (old new : ascii) (s : string) :
  String.length (str_replace old new s) = String.length s.
Proof. induction s as [|c rest IH]; simpl; [done|]. by rewrite IH. Qed.

Lemma title_from_length (cased : bool) (s : string) :
  String.length (title_from cased s) = String.length s.
Proof.
  revert cased. induction s as [|c rest IH]; intros cased; simpl; [done|].
  destruct (is_lower c); [|destruct (is_upper c)]; simpl; by rewrite IH.
Qed.

Lemma str_replace_is_ascii (s : string) :
  str_is_ascii (str_replace "_" " " s) = str_is_ascii s.
Proof.
  induction s as [|c rest IH]; [reflexivity|].
  cbn [str_replace str_is_ascii]. rewrite IH. f_equal.
  case_bool_decide as Hc; [|reflexivity]. by rewrite Hc.
Qed.

(** One turn of the loop of [title_from]. *)
Lemma title_from_cons (cased : bool) (c : ascii) (rest : string) :
  title_from cased (String c rest)
  = String (if is_lower c then (if cased then c else to_upper c)
            else if is_upper c then (if cased then to_lower c else c)
            else c)
           (title_from (is_lower c || is_upper c) rest).
Proof.
  cbn [title_from]. destruct (is_lower c); [reflexivity|].
  destruct (is_upper c); reflexivity.
Qed.

(** What one turn does to a character of the status, after the
    replacement of the underscore, told by the alphabet. *)
Lemma title_turn_char (cased : bool) (a : ascii) :
  (let c := if bool_decide (a = "_"%char) then " "%char else a in
   if is_lower c then (if cased then c else to_upper c)
   else if is_upper c then (if cased then to_lower c else c)
   else c)
  = label_char (negb cased) a ∧
  (let c := if bool_decide (a = "_"%char) then " "%char else a in
   is_lower c || is_upper c)
  = is_letter a.
Proof.
  destruct cased; destruct a as [[] [] [] [] [] [] [] []];
    vm_compute; split; reflexivity.
Qed.

Lemma word_start_at_cons (a : ascii) (rest : string) (j : nat) :
  word_start_at (String a rest) (S j)
  = match j with
    | O => negb (is_letter a)
    | S _ => word_start_at rest j
    end.
Proof. destruct j; reflexivity. Qed.

Lemma title_from_replace_get (s : string) (cased : bool) (i : nat) (c : ascii) :
  String.get i s = Some c →
  String.get i (title_from cased (str_replace "_" " " s))
  = Some (label_char (match i with
                      | O => negb cased
                      | S _ => word_start_at s i
                      end) c).
Proof.
  revert cased i. induction s as [|a rest IH]; intros cased i Hget.
  - destruct i; discriminate.
  - cbn [str_replace]. rewrite title_from_cons.
    destruct (title_turn_char cased a) as [Hchar Hflag].
    cbv zeta in Hchar, Hflag. rewrite Hchar, Hflag.
    destruct i as [|j].
    + simpl in Hget. injection Hget as ->. reflexivity.
    + simpl in Hget. cbn [String.get]. rewrite (IH _ _ Hget).
      rewrite word_start_at_cons. destruct j; reflexivity.
Qed.

Lemma title_label_of_status (unicode_title : string → string) (x : string) :
  str_is_ascii x = true →
  is_title_label x (str_title unicode_title (str_replace "_" " " x)).
Proof.
  intros Hascii. unfold str_title. rewrite str_replace_is_ascii, Hascii.
  split.
  - by rewrite title_from_length, str_replace_length.
  - intros i c Hget. rewrite (title_from_replace_get x false i c Hget).
    destruct i; reflexivity.
Qed.

(** C10: for every database state, [lookups] returns one entry per
    distinct subscription status present in the database, followed by the
    single final entry [["none", "No Subscription"]]; the entry of a status
    holds the status and its label, which is the status with every
    underscore replaced by a space, every letter that starts a word in
    capital and every other letter in small (for a status that is not
    ASCII, the title-casing is that of the built-in on the replaced
    string). *)
Theorem lookups_distinct_statuses_then_none :
  ∀ (unicode_title : string → string) (db : Database)
    (self : SimpleListFilter) (request : HttpRequest) (model_admin : ModelAdmin),
    ∃ (statuses : list string) (entries : list (list string)),
      NoDup statuses ∧
      (∀ x, x ∈ statuses
            ↔ ∃ s, s ∈ subscription_table db ∧ status s = x) ∧
      CustomerSubscriptionStatusListFilter.lookups unicode_title db self
        request model_admin
      = entries ++ [ ["none"; "No Subscription"] ] ∧
      Forall2 (λ x entry,
                 ∃ label, entry = [x; label] ∧
                   (str_is_ascii x = true → is_title_label x label) ∧
                   (str_is_ascii x = false →
                    label = unicode_title (str_replace "_" " " x)))
        statuses entries.
Proof.
  intros unicode_title db self request model_admin.
  exists (qs_distinct (status <$> subscription_table db)).
  eexists. split; [apply NoDup_qs_distinct|]. split; [|split].
  - intros x. rewrite elem_of_qs_distinct, list_elem_of_fmap. split.
    + intros (s & -> & Hs). eauto.
    + intros (s & Hs & <-). eauto.
  - reflexivity.
  - apply Forall2_fmap_r, Forall_Forall2_diag, Forall_forall.
    intros x _. simpl. eexists. split; [reflexivity|]. split.
    + apply title_label_of_status.
    + intros Hascii. unfold str_title.
      by rewrite str_replace_is_ascii, Hascii.
Qed.

Example label_of_past_due : is_title_label "past_due" "Past Due".
Proof.
  split; [reflexivity|]. intros i c Hget.
  do 8 (destruct i as [|i]; [injection Hget as <-; reflexivity|]).
  discriminate.
Qed.

(** * Further properties of the admin classes *)

(** ** Actions *)

(** X1: [get_actions], in [ReadOnlyAdmin] and in every registered admin
    class, raises exactly when the inherited mapping has no
    ['delete_selected'] entry, and the exception is then
    [KeyError('delete_selected')]. *)
Theorem get_actions_raises_iff_absent :
  ∀ (cls : AdminClass) (self : ModelAdmin) (request : HttpRequest) (e : PyExc),
    get_actions_of cls self request = Raise e
    ↔ e = KeyError "delete_selected" ∧
      super_get_actions self request !! "delete_selected" = None.
Proof.
  intros cls self request e. rewrite get_actions_of_base.
  unfold ReadOnlyAdmin.get_actions, py_del.
  destruct (super_get_actions self request !! "delete_selected") as [a|].
  - split; [discriminate|]. intros [_ Hnone]. discriminate.
  - split.
    + intros H. injection H as <-. done.
    + intros [-> _]. done.
Qed.

(** X2: when [get_actions] returns, exactly one entry was removed from the
    inherited mapping: putting the inherited ['delete_selected'] action back
    restores it, and the returned mapping is one entry smaller. *)
Theorem get_actions_removes_one_entry :
  ∀ (self : ModelAdmin) (request : HttpRequest) (actions : gmap string Action),
    ReadOnlyAdmin.get_actions self request = Ok actions →
    ∃ removed : Action,
      super_get_actions self request !! "delete_selected" = Some removed ∧
      <["delete_selected" := removed]> actions = super_get_actions self request ∧
      size (super_get_actions self request) = S (size actions).
Proof.
  intros self request actions H.
  destruct (py_del_Ok _ _ _ H) as [[removed Hrem] Hdel].
  exists removed. rewrite Hdel. split; [done|]. split.
  - by apply insert_delete_id.
  - rewrite map_size_delete, Hrem.
    assert (Hpos : size (super_get_actions self request) ≠ 0%nat).
    { apply map_size_ne_0_lookup. eauto. }
    destruct (size (super_get_actions self request)); [done|]. reflexivity.
Qed.

Lemma get_actions_removes_one_entry_witness :
  ∃ actions removed,
    ReadOnlyAdmin.get_actions sample_admin sample_request = Ok actions ∧
    <["delete_selected" := removed]> actions
    = super_get_actions sample_admin sample_request.
Proof.
  assert (H : ReadOnlyAdmin.get_actions sample_admin sample_request
              = Ok (delete "delete_selected"
                      (super_get_actions sample_admin sample_request)))
    by (vm_compute; reflexivity).
  destruct (get_actions_removes_one_entry sample_admin sample_request _ H)
    as (removed & _ & Hback & _).
  eexists _, removed. split; [exact H|exact Hback].
Defined.

(** ** Read-only fields *)

Lemma names_set_length (l : list string) :
  (length (elements (list_to_set l : gset string)) ≤ length l)%nat.
Proof.
  apply submseteq_length, NoDup_submseteq; [apply NoDup_elements|].
  intros x Hx. by rewrite elem_of_elements, elem_of_list_to_set in Hx.
Qed.

Lemma names_set_nil (l : list string) :
  elements (list_to_set l : gset string) = [] ↔ l = [].
Proof.
  split.
  - intros Hnil. apply elem_of_nil_inv. intros x Hx.
    assert (Hin : x ∈ elements (list_to_set l : gset string))
      by (by rewrite elem_of_elements, elem_of_list_to_set).
    rewrite Hnil in Hin. by apply not_elem_of_nil in Hin.
  - intros ->. reflexivity.
Qed.

(** X3: when the names of the local fields and of the local many-to-many
    fields are pairwise distinct, [get_readonly_fields] of [ReadOnlyAdmin]
    and of [ReadOnlyInline] is a permutation of those names: each field is
    listed once. *)
Theorem readonly_fields_permutation :
  ∀ (Obj : Type) (o : Options) (super : HttpRequest → gmap string Action)
    (request : HttpRequest) (obj : option Obj),
    NoDup ((name <$> local_fields o) ++ (name <$> local_many_to_many o)) →
    ReadOnlyAdmin.get_readonly_fields
      {| opts := o; super_get_actions := super |} request obj
    ≡ₚ (name <$> local_fields o) ++ (name <$> local_many_to_many o) ∧
    ReadOnlyInline.get_readonly_fields {| inline_opts := o |} request obj
    ≡ₚ (name <$> local_fields o) ++ (name <$> local_many_to_many o).
Proof.
  intros Obj o super request obj Hnd.
  split; by apply elements_list_to_set.
Qed.

Lemma readonly_fields_permutation_witness :
  ReadOnlyAdmin.get_readonly_fields sample_admin sample_request (@None unit)
  ≡ₚ ["id"; "stripe_id"].
Proof.
  refine (proj1 (readonly_fields_permutation unit sample_opts
                   (super_get_actions sample_admin) sample_request None _)).
  vm_compute. apply NoDup_cons. split.
  - intros Hin. apply list_elem_of_singleton in Hin. discriminate.
  - apply NoDup_singleton.
Defined.

(** X4: [get_readonly_fields] never lists more names than the model has
    local and many-to-many fields (fields that share a name are listed
    once), and it is empty only for a model without any such field. *)
Theorem readonly_fields_length_and_empty :
  ∀ (Obj : Type) (self : ModelAdmin) (request : HttpRequest) (obj : option Obj),
    (length (ReadOnlyAdmin.get_readonly_fields self request obj)
     ≤ length (local_fields (opts self))
       + length (local_many_to_many (opts self)))%nat ∧
    (ReadOnlyAdmin.get_readonly_fields self request obj = []
     ↔ local_fields (opts self) = [] ∧ local_many_to_many (opts self) = []).
Proof.
  intros Obj self request obj. unfold ReadOnlyAdmin.get_readonly_fields. split.
  - etrans; [apply names_set_length|].
    by rewrite length_app, !length_fmap.
  - rewrite names_set_nil. split.
    + intros Happ. apply app_eq_nil in Happ as [Hl Hm].
      by apply fmap_nil_inv in Hl, Hm.
    + intros [-> ->]. reflexivity.
Qed.

(** ** Search fields *)

Lemma user_prefix_inj (x y : string) :
  "user__" +:+ x = "user__" +:+ y → x = y.
Proof. intros H. vm_compute in H. by injection H. Qed.

(** X5: [user_search_fields] always starts with the lookup on
    [USERNAME_FIELD]; it lists the same lookup twice exactly when the user
    model has an [email] field that is also its [USERNAME_FIELD]. *)
Theorem user_search_fields_duplicates :
  ∀ User : UserModel,
    head (user_search_fields User) = Some ("user__" +:+ USERNAME_FIELD User) ∧
    (NoDup (user_search_fields User)
     ↔ ¬ (USERNAME_FIELD User = "email" ∧
          "email" ∈ name <$> meta_fields User)).
Proof.
  intros User. rewrite user_search_fields_unfold. split; [reflexivity|].
  case_bool_decide as Hemail.
  - split.
    + intros Hnd [Hu _]. apply NoDup_cons in Hnd as [Hnot _].
      apply Hnot. rewrite Hu. apply list_elem_of_singleton. reflexivity.
    + intros Hnot. apply NoDup_cons. split; [|apply NoDup_singleton].
      intros Hin. apply list_elem_of_singleton in Hin.
      apply Hnot. split; [|done].
      apply user_prefix_inj. exact Hin.
  - split.
    + intros _ [_ Hin]. done.
    + intros _. apply NoDup_singleton.
Qed.

(** X6: [customer_search_fields] has one entry per user search field, one
    or two in all, and each entry is the lookup [customer__user__] followed
    by [USERNAME_FIELD] or by [email]. *)
Theorem customer_search_fields_shape :
  ∀ User : UserModel,
    length (customer_search_fields User) = length (user_search_fields User) ∧
    (1 ≤ length (customer_search_fields User) ≤ 2)%nat ∧
    ∀ x, x ∈ customer_search_fields User →
         x = "customer__user__" +:+ USERNAME_FIELD User ∨
         (x = "customer__user__email" ∧ "email" ∈ name <$> meta_fields User).
Proof.
  intros User. unfold customer_search_fields.
  rewrite length_fmap, user_search_fields_unfold.
  split; [reflexivity|]. case_bool_decide as Hemail; simpl.
  - split; [lia|]. intros x Hx.
    apply elem_of_cons in Hx as [->|Hx]; [by left|].
    apply list_elem_of_singleton in Hx as ->. by right.
  - split; [lia|]. intros x Hx.
    apply list_elem_of_singleton in Hx as ->. by left.
Qed.

(** ** The list filters, for every selected value *)

Lemma elem_of_card_filter {Row} (db : Database) (rel : Row → Z)
    (v : option string) (queryset : list Row) (r : Row) :
  r ∈ (if bool_decide (v = Some "yes") then
         qs_exclude db rel (Q_or (Q_card_fingerprint "") Q_card_None) queryset
       else if bool_decide (v = Some "no") then
         qs_filter db rel (Q_or (Q_card_fingerprint "") Q_card_None) queryset
       else qs_all queryset)
  ↔ r ∈ queryset ∧ card_selected db v (rel r).
Proof.
  unfold card_selected. repeat case_bool_decide.
  - rewrite decide_True by done.
    by rewrite elem_of_qs_exclude, not_matched_by_no_card.
  - rewrite decide_False, decide_True by done.
    by rewrite elem_of_qs_filter, joined_no_card.
  - rewrite !decide_False by done. unfold qs_all. tauto.
Qed.

Lemma elem_of_customer_card_filter (db : Database) (self : SimpleListFilter)
    (request : HttpRequest) (queryset : list Customer) (r : Customer) :
  r ∈ CustomerHasCardListFilter.queryset db self request queryset
  ↔ r ∈ queryset ∧
    card_selected db (CustomerHasCardListFilter.value self) (pk r).
Proof. apply (elem_of_card_filter db pk). Qed.

Lemma invoice_card_filter_rows (db : Database) (self : SimpleListFilter)
    (request : HttpRequest) (queryset rows : list Invoice) :
  InvoiceCustomerHasCardListFilter.queryset db self request queryset = Ok rows →
  ∀ r, r ∈ rows
       ↔ r ∈ queryset ∧
         card_selected db (InvoiceCustomerHasCardListFilter.value self)
           (pk (customer r)).
Proof.
  unfold InvoiceCustomerHasCardListFilter.queryset, card_selected.
  intros Hrows r. repeat case_bool_decide.
  - discriminate.
  - injection Hrows as <-. rewrite decide_False, decide_True by done.
    by rewrite elem_of_qs_filter, joined_no_card.
  - injection Hrows as <-. rewrite !decide_False by done.
    unfold qs_all. tauto.
Qed.

Lemma invoice_card_filter_no (db : Database) (self : SimpleListFilter)
    (request : HttpRequest) (queryset : list Invoice) :
  InvoiceCustomerHasCardListFilter.value self = Some "no" →
  InvoiceCustomerHasCardListFilter.queryset db self request queryset
  = Ok (qs_filter db (λ row, pk (customer row))
          (Q_or (Q_card_fingerprint "") Q_card_None) queryset).
Proof.
  intros Hv. unfold InvoiceCustomerHasCardListFilter.queryset. rewrite Hv.
  rewrite bool_decide_eq_false_2 by discriminate.
  by rewrite bool_decide_eq_true_2.
Qed.

Lemma elem_of_status_filter (db : Database) (self : SimpleListFilter)
    (request : HttpRequest) (queryset : list Customer) (r : Customer) :
  r ∈ CustomerSubscriptionStatusListFilter.queryset db self request queryset
  ↔ r ∈ queryset ∧
    status_selected db (CustomerSubscriptionStatusListFilter.value self) (pk r).
Proof.
  unfold CustomerSubscriptionStatusListFilter.queryset, status_selected.
  case_bool_decide as Hnone.
  - rewrite decide_True by done. apply elem_of_count_zero.
  - rewrite decide_False by done.
    destruct (truthy (CustomerSubscriptionStatusListFilter.value self)).
    + unfold qs_filter_pk_in.
      rewrite list_elem_of_filter, elem_of_customers_with_status. tauto.
    + unfold qs_all. tauto.
Qed.

Lemma no_card_condition_dec (db : Database) (cid : Z) :
  no_card_condition db cid ∨ ¬ no_card_condition db cid.
Proof.
  destruct (matched_by db (Q_or (Q_card_fingerprint "") Q_card_None) cid)
    eqn:Hm.
  - left. by apply matched_by_no_card.
  - right. by apply not_matched_by_no_card.
Qed.

(** X7: on any queryset of customers, the two choices that the card
    presence filter offers split the queryset: every customer of the
    queryset is returned for ["yes"] or for ["no"], and none for both. *)
Theorem card_presence_yes_no_partition :
  ∀ (db : Database) (yes no : SimpleListFilter) (request : HttpRequest)
    (queryset : list Customer) (r : Customer),
    CustomerHasCardListFilter.value yes = Some "yes" →
    CustomerHasCardListFilter.value no = Some "no" →
    (r ∈ queryset
     ↔ r ∈ CustomerHasCardListFilter.queryset db yes request queryset ∨
       r ∈ CustomerHasCardListFilter.queryset db no request queryset) ∧
    ¬ (r ∈ CustomerHasCardListFilter.queryset db yes request queryset ∧
       r ∈ CustomerHasCardListFilter.queryset db no request queryset).
Proof.
  intros db yes no request queryset r Hyes Hno.
  rewrite !elem_of_customer_card_filter, Hyes, Hno.
  unfold card_selected. simpl.
  destruct (no_card_condition_dec db (pk r)); tauto.
Qed.

Lemma card_presence_yes_no_partition_witness :
  sample_customer 11 ∈ sample_customer <$> [10; 11; 12]
  ↔ sample_customer 11
      ∈ CustomerHasCardListFilter.queryset sample_db (sample_filter "yes")
          sample_request (sample_customer <$> [10; 11; 12]) ∨
    sample_customer 11
      ∈ CustomerHasCardListFilter.queryset sample_db (sample_filter "no")
          sample_request (sample_customer <$> [10; 11; 12]).
Proof.
  refine (proj1 (card_presence_yes_no_partition sample_db
                   (sample_filter "yes") (sample_filter "no")
                   sample_request _ _ _ _));
    vm_compute; reflexivity.
Defined.

(** X8: for every selected value, the two filters of the customer list
    return only records of the queryset they are given, and so does the
    invoice filter whenever its queryset can be evaluated; whether a record
    is returned depends on that record alone: a record present in two
    querysets is in both results or in neither. *)
Theorem filters_select_record_by_record :
  ∀ (db : Database) (self : SimpleListFilter) (request : HttpRequest),
    (∀ (qs qs' : list Customer) (r : Customer),
       (r ∈ CustomerHasCardListFilter.queryset db self request qs → r ∈ qs) ∧
       (r ∈ qs → r ∈ qs' →
        r ∈ CustomerHasCardListFilter.queryset db self request qs
        ↔ r ∈ CustomerHasCardListFilter.queryset db self request qs')) ∧
    (∀ (qs qs' rows rows' : list Invoice) (r : Invoice),
       InvoiceCustomerHasCardListFilter.queryset db self request qs = Ok rows →
       InvoiceCustomerHasCardListFilter.queryset db self request qs' = Ok rows' →
       (r ∈ rows → r ∈ qs) ∧
       (r ∈ qs → r ∈ qs' → r ∈ rows ↔ r ∈ rows')) ∧
    (∀ (qs qs' : list Customer) (r : Customer),
       (r ∈ CustomerSubscriptionStatusListFilter.queryset db self request qs
        → r ∈ qs) ∧
       (r ∈ qs → r ∈ qs' →
        r ∈ CustomerSubscriptionStatusListFilter.queryset db self request qs
        ↔ r ∈ CustomerSubscriptionStatusListFilter.queryset db self request qs')).
Proof.
  intros db self request. split; [|split].
  - intros qs qs' r. rewrite !elem_of_customer_card_filter. tauto.
  - intros qs qs' rows rows' r Hrows Hrows'.
    rewrite (invoice_card_filter_rows _ _ _ _ _ Hrows r).
    rewrite (invoice_card_filter_rows _ _ _ _ _ Hrows' r). tauto.
  - intros qs qs' r. rewrite !elem_of_status_filter. tauto.
Qed.

(** X9: the two filters of the customer list commute: applying the card
    presence filter and then the subscription status filter returns the
    same customers as applying them in the other order, for every pair of
    selected values. *)
Theorem customer_filters_commute :
  ∀ (db : Database) (card_filter status_filter : SimpleListFilter)
    (request : HttpRequest) (queryset : list Customer) (r : Customer),
    r ∈ CustomerSubscriptionStatusListFilter.queryset db status_filter request
          (CustomerHasCardListFilter.queryset db card_filter request queryset)
    ↔ r ∈ CustomerHasCardListFilter.queryset db card_filter request
            (CustomerSubscriptionStatusListFilter.queryset db status_filter
               request queryset).
Proof.
  intros db card_filter status_filter request queryset r.
  rewrite elem_of_status_filter, !elem_of_customer_card_filter,
    elem_of_status_filter. tauto.
Qed.

(** ** Order and repetition of the returned rows *)

Lemma joined_count_cards (l : list Card) :
  length (filter (λ j, holds_on (Q_or (Q_card_fingerprint "") Q_card_None) j
                       = true)
            (Some <$> l))
  = length (filter (λ c, fingerprint c = "") l).
Proof.
  induction l as [|c l IH]; [reflexivity|].
  rewrite fmap_cons, !filter_cons. simpl holds_on. rewrite orb_false_r.
  destruct (decide (fingerprint c = "")) as [Hfp|Hfp].
  - rewrite decide_True by (by apply bool_decide_eq_true).
    cbn [length]. f_equal. exact IH.
  - rewrite decide_False; [exact IH|].
    intros Hb. by apply bool_decide_eq_true in Hb.
Qed.

Lemma joined_count (db : Database) (cid : Z) :
  length (filter (λ j, holds_on (Q_or (Q_card_fingerprint "") Q_card_None) j
                       = true)
            (left_outer_join_card db cid))
  = no_card_rows db cid.
Proof.
  unfold left_outer_join_card, no_card_rows.
  destruct (cards_of db cid) as [|c0 cs]; [reflexivity|].
  apply joined_count_cards.
Qed.

Lemma fmap_const_replicate {A B} (y : B) (l : list A) :
  (λ _, y) <$> l = replicate (length l) y.
Proof.
  induction l as [|x l IH]; [done|].
  rewrite fmap_cons. cbn [length replicate]. by f_equal.
Qed.

Lemma qs_filter_no_card_rows {Row} (db : Database) (rel : Row → Z)
    (queryset : list Row) :
  qs_filter db rel (Q_or (Q_card_fingerprint "") Q_card_None) queryset
  = row ← queryset; replicate (no_card_rows db (rel row)) row.
Proof.
  unfold qs_filter. induction queryset as [|row qs IH]; [reflexivity|].
  rewrite !bind_cons, IH. f_equal.
  by rewrite fmap_const_replicate, joined_count.
Qed.

Lemma bind_singleton_id {A} (l : list A) : (x ← l; [x]) = l.
Proof. induction l as [|x l IH]; [done|]. rewrite bind_cons, IH. done. Qed.

(** X10: with value ["yes"], the card presence filter on customers
    returns a sublist of the queryset: the kept records stay in order and
    none is repeated.  The subscription status filter does the same for
    every value other than ["none"]. *)
Theorem non_joining_branches_return_sublist :
  ∀ (db : Database) (self : SimpleListFilter) (request : HttpRequest)
    (queryset : list Customer),
    (CustomerHasCardListFilter.value self = Some "yes" →
     CustomerHasCardListFilter.queryset db self request queryset
     `sublist_of` queryset) ∧
    (CustomerSubscriptionStatusListFilter.value self ≠ Some "none" →
     CustomerSubscriptionStatusListFilter.queryset db self request queryset
     `sublist_of` queryset).
Proof.
  intros db self request queryset. split.
  - intros Hv. unfold CustomerHasCardListFilter.queryset.
    rewrite Hv, bool_decide_eq_true_2 by done. apply sublist_filter.
  - intros Hv. unfold CustomerSubscriptionStatusListFilter.queryset.
    rewrite bool_decide_eq_false_2 by done.
    destruct (truthy _); [apply sublist_filter|done].
Qed.

Lemma non_joining_branches_return_sublist_witness :
  CustomerHasCardListFilter.queryset sample_db (sample_filter "yes")
    sample_request (sample_customer <$> [10; 11; 12])
  `sublist_of` sample_customer <$> [10; 11; 12].
Proof.
  apply (proj1 (non_joining_branches_return_sublist sample_db
                  (sample_filter "yes") sample_request _)).
  vm_compute. reflexivity.
Defined.

(** X12: when the card table is empty, the card presence filter on
    customers returns the queryset unchanged for ["no"] and nothing for
    ["yes"]; the filter on invoices returns the queryset unchanged for
    ["no"]. *)
Theorem card_filters_on_empty_card_table :
  ∀ (db : Database) (self : SimpleListFilter) (request : HttpRequest)
    (customers : list Customer) (invoices : list Invoice),
    card_table db = [] →
    (CustomerHasCardListFilter.value self = Some "no" →
       CustomerHasCardListFilter.queryset db self request customers = customers
       ∧ InvoiceCustomerHasCardListFilter.queryset db self request invoices
         = Ok invoices) ∧
    (CustomerHasCardListFilter.value self = Some "yes" →
       CustomerHasCardListFilter.queryset db self request customers = []).
Proof.
  intros db self request customers invoices Hempty.
  assert (Hcards : ∀ cid, cards_of db cid = []).
  { intros cid. unfold cards_of. by rewrite Hempty. }
  split; intros Hv.
  - rewrite (invoice_card_filter_no db self request invoices Hv).
    unfold CustomerHasCardListFilter.queryset.
    rewrite Hv, bool_decide_eq_false_2, bool_decide_eq_true_2 by done.
    rewrite !qs_filter_no_card_rows. unfold no_card_rows.
    split; [|f_equal].
    + etrans; [|apply bind_singleton_id].
      apply list_bind_ext; [|done]. intros row. by rewrite Hcards.
    + etrans; [|apply bind_singleton_id].
      apply list_bind_ext; [|done]. intros row. by rewrite Hcards.
  - unfold CustomerHasCardListFilter.queryset.
    rewrite Hv, bool_decide_eq_true_2 by done.
    unfold qs_exclude. simpl matched_by.
    apply elem_of_nil_inv; intros r Hr.
    apply list_elem_of_filter in Hr as [Hm _].
    rewrite Hcards in Hm.
    rewrite (bool_decide_eq_true_2 ([] = [])) in Hm by done.
    by rewrite orb_true_r in Hm.
Qed.

Lemma card_filters_on_empty_card_table_witness :
  CustomerHasCardListFilter.queryset
    {| card_table := []; subscription_table := [] |}
    (sample_filter "no") sample_request (sample_customer <$> [10; 11])
  = sample_customer <$> [10; 11].
Proof.
  refine (proj1 (proj1 (card_filters_on_empty_card_table
                          {| card_table := []; subscription_table := [] |}
                          (sample_filter "no") sample_request
                          (sample_customer <$> [10; 11]) [] eq_refl) _)).
  vm_compute. reflexivity.
Defined.

(** ** The subscription status filter and its lookups *)

Lemma status_filter_value (v : string) :
  CustomerSubscriptionStatusListFilter.value (status_filter v) = Some v.
Proof.
  unfold CustomerSubscriptionStatusListFilter.value, status_filter. simpl.
  apply lookup_singleton_eq.
Qed.

(** X13: the subscription status filter treats the empty string like no
    selection: with value [""] it returns the queryset unchanged. *)
Theorem status_filter_empty_string_is_identity :
  ∀ (db : Database) (self : SimpleListFilter) (request : HttpRequest)
    (queryset : list Customer),
    CustomerSubscriptionStatusListFilter.value self = Some "" →
    CustomerSubscriptionStatusListFilter.queryset db self request queryset
    = queryset.
Proof.
  intros db self request queryset Hv.
  unfold CustomerSubscriptionStatusListFilter.queryset. rewrite Hv.
  rewrite bool_decide_eq_false_2 by done. reflexivity.
Qed.

Lemma status_filter_empty_string_is_identity_witness :
  CustomerSubscriptionStatusListFilter.queryset sample_db (status_filter "")
    sample_request (sample_customer <$> [10; 11; 12])
  = sample_customer <$> [10; 11; 12].
Proof.
  apply status_filter_empty_string_is_identity. apply status_filter_value.
Defined.

Lemma fmap_fst_pair {A B} (g : A → B) (l : list A) :
  fst <$> ((λ x, (x, g x)) <$> l) = l.
Proof.
  induction l as [|x l IH]; [done|]. rewrite !fmap_cons, IH. done.
Qed.

(** X14: with value ["none"], the subscription status filter returns each
    customer at most once, also when the queryset it is given repeats
    customers (as the "no" branch of the card presence filter can). *)
Theorem status_none_has_no_repetition :
  ∀ (db : Database) (self : SimpleListFilter) (request : HttpRequest)
    (queryset : list Customer),
    CustomerSubscriptionStatusListFilter.value self = Some "none" →
    NoDup (CustomerSubscriptionStatusListFilter.queryset db self request
             queryset).
Proof.
  intros db self request queryset Hv.
  unfold CustomerSubscriptionStatusListFilter.queryset.
  rewrite Hv, bool_decide_eq_true_2 by done.
  unfold filter_subs, annotate_count_subscription.
  eapply sublist_NoDup; [apply (NoDup_remove_dups queryset)|].
  etrans; [apply fmap_sublist, sublist_filter|].
  by rewrite fmap_fst_pair.
Qed.

Lemma status_none_has_no_repetition_witness :
  NoDup (CustomerSubscriptionStatusListFilter.queryset sample_db
           (status_filter "none") sample_request
           (sample_customer <$> [12; 12; 10])).
Proof.
  apply status_none_has_no_repetition. apply status_filter_value.
Defined.

(** X15: a customer returned for ["none"] is returned for no status: the
    result for ["none"] and the result for any other non-empty value have
    no customer in common, whatever the querysets. *)
Theorem status_none_excludes_every_status :
  ∀ (db : Database) (none other : SimpleListFilter) (request : HttpRequest)
    (qs qs' : list Customer) (v : string) (r : Customer),
    CustomerSubscriptionStatusListFilter.value none = Some "none" →
    CustomerSubscriptionStatusListFilter.value other = Some v →
    v ≠ "none" → v ≠ "" →
    r ∈ CustomerSubscriptionStatusListFilter.queryset db none request qs →
    r ∉ CustomerSubscriptionStatusListFilter.queryset db other request qs'.
Proof.
  intros db none other request qs qs' v r Hnone Hv Hvn Hve.
  rewrite !elem_of_status_filter, Hnone, Hv. unfold status_selected.
  rewrite decide_True by done. rewrite decide_False by congruence.
  simpl. rewrite bool_decide_eq_true_2 by done.
  intros [_ Hno] [_ (s & Hs & Hcid & _)]. by apply (Hno s).
Qed.

Lemma status_none_excludes_every_status_witness :
  sample_customer 12
    ∉ CustomerSubscriptionStatusListFilter.queryset sample_db
        (status_filter "active") sample_request
        (sample_customer <$> [10; 11; 12]).
Proof.
  apply (status_none_excludes_every_status sample_db (status_filter "none")
           (status_filter "active") sample_request
           (sample_customer <$> [10; 11; 12]) _ "active").
  - apply status_filter_value.
  - apply status_filter_value.
  - discriminate.
  - discriminate.
  - vm_compute. apply list_elem_of_singleton. reflexivity.
Defined.

(** X16: when no subscription has the status ["none"], the choices that
    [lookups] offers cover every queryset: each customer of the queryset is
    returned by [queryset] for the key of at least one offered entry. *)
Theorem lookups_cover_queryset :
  ∀ (unicode_title : string → string) (db : Database)
    (self : SimpleListFilter) (request : HttpRequest)
    (model_admin : ModelAdmin) (queryset : list Customer) (r : Customer),
    (∀ s, s ∈ subscription_table db → status s ≠ "none") →
    r ∈ queryset →
    ∃ key label,
      [key; label]
        ∈ CustomerSubscriptionStatusListFilter.lookups unicode_title db self
            request model_admin ∧
      r ∈ CustomerSubscriptionStatusListFilter.queryset db (status_filter key)
            request queryset.
Proof.
  intros unicode_title db self request model_admin queryset r Hnot Hr.
  unfold CustomerSubscriptionStatusListFilter.lookups.
  destruct (subscriptions_of db (pk r)) as [|s rest] eqn:Hsubs.
  - exists "none", "No Subscription". split.
    + apply elem_of_app. right. apply list_elem_of_singleton. reflexivity.
    + rewrite elem_of_status_filter, status_filter_value.
      split; [done|]. unfold status_selected. rewrite decide_True by done.
      by apply subscriptions_of_nil.
  - assert (Hs : s ∈ subscriptions_of db (pk r))
      by (rewrite Hsubs; apply list_elem_of_here).
    apply elem_of_subscriptions_of in Hs as [Hs Hcid].
    exists (status s),
      (str_title unicode_title (str_replace "_" " " (status s))). split.
    + apply elem_of_app. left. apply list_elem_of_fmap.
      exists (status s). split; [done|].
      apply elem_of_qs_distinct, list_elem_of_fmap. eauto.
    + rewrite elem_of_status_filter, status_filter_value.
      split; [done|]. unfold status_selected.
      rewrite decide_False by (intros [= Heq]; by apply (Hnot s)).
      destruct (truthy (Some (status s))); [|done]. eauto.
Qed.

Lemma lookups_cover_queryset_witness :
  ∃ key label,
    [key; label]
      ∈ CustomerSubscriptionStatusListFilter.lookups id sample_db
          unselected_filter sample_request sample_admin ∧
    sample_customer 11
      ∈ CustomerSubscriptionStatusListFilter.queryset sample_db
          (status_filter key) sample_request (sample_customer <$> [10; 11; 12]).
Proof.
  apply lookups_cover_queryset.
  - intros s Hs. vm_compute in Hs.
    repeat (apply elem_of_cons in Hs as [->|Hs]; [discriminate|]).
    by apply not_elem_of_nil in Hs.
  - vm_compute. apply list_elem_of_further, list_elem_of_here.
Defined.

Lemma lookup_keys_statuses (l : list string) (f : string → string) :
  lookup_keys ((λ x, [x; f x]) <$> l) = l.
Proof.
  unfold lookup_keys. induction l as [|x l IH]; [reflexivity|].
  rewrite fmap_cons, bind_cons, IH. reflexivity.
Qed.

(** X17: the keys of the entries offered by [lookups] are pairwise distinct
    exactly when no subscription has the status ["none"]; otherwise the key
    ["none"] is offered twice. *)
Theorem lookups_keys_distinct_iff :
  ∀ (unicode_title : string → string) (db : Database)
    (self : SimpleListFilter) (request : HttpRequest)
    (model_admin : ModelAdmin),
    NoDup (lookup_keys (CustomerSubscriptionStatusListFilter.lookups
                          unicode_title db self request model_admin))
    ↔ ∀ s, s ∈ subscription_table db → status s ≠ "none".
Proof.
  intros unicode_title db self request model_admin.
  unfold CustomerSubscriptionStatusListFilter.lookups.
  unfold lookup_keys at 1. rewrite bind_app. fold (lookup_keys
    ((λ x, [x; str_title unicode_title (str_replace "_" " " x)])
     <$> qs_distinct (status <$> subscription_table db))).
  rewrite lookup_keys_statuses. simpl.
  rewrite NoDup_app. split.
  - intros (_ & Hdisj & _) s Hs Hnone.
    apply (Hdisj "none"); [|apply list_elem_of_here].
    apply elem_of_qs_distinct, list_elem_of_fmap. eauto.
  - intros Hnot. split; [apply NoDup_qs_distinct|].
    split; [|apply NoDup_singleton].
    intros x Hx Hin. apply list_elem_of_singleton in Hin as ->.
    apply elem_of_qs_distinct, list_elem_of_fmap in Hx as (s & Heq & Hs).
    by apply (Hnot s).
Qed.

(** ** Labels of the offered statuses *)

Lemma cased_not_underscore (c : ascii) :
  (is_lower c = true → c ≠ "_"%char ∧ to_upper c ≠ "_"%char) ∧
  (is_upper c = true → c ≠ "_"%char ∧ to_lower c ≠ "_"%char).
Proof.
  destruct c as [[] [] [] [] [] [] [] []]; vm_compute;
    (split; intros H; [try discriminate H|try discriminate H]);
    split; discriminate.
Qed.

Lemma title_from_has_underscore (cased : bool) (s : string) :
  str_has_char "_" (title_from cased s) = str_has_char "_" s.
Proof.
  revert cased. induction s as [|c rest IH]; intros cased; [reflexivity|].
  cbn [title_from].
  destruct (is_lower c) eqn:Hl; [|destruct (is_upper c) eqn:Hu].
  - destruct (proj1 (cased_not_underscore c) Hl) as [Hc Hup].
    cbn [str_has_char]. rewrite IH.
    rewrite (bool_decide_eq_false_2 (c = "_"%char)) by done.
    destruct cased; by rewrite bool_decide_eq_false_2.
  - destruct (proj2 (cased_not_underscore c) Hu) as [Hc Hlow].
    cbn [str_has_char]. rewrite IH.
    rewrite (bool_decide_eq_false_2 (c = "_"%char)) by done.
    destruct cased; by rewrite bool_decide_eq_false_2.
  - cbn [str_has_char]. by rewrite IH.
Qed.

Lemma str_replace_no_underscore (s : string) :
  str_has_char "_" (str_replace "_" " " s) = false.
Proof.
  induction s as [|c rest IH]; [reflexivity|].
  cbn [str_replace str_has_char]. rewrite IH, orb_false_r.
  destruct (bool_decide (c = "_"%char)) eqn:Hc; apply bool_decide_eq_false_2.
  - discriminate.
  - by apply bool_decide_eq_false in Hc.
Qed.

(** X18: for every subscription status present in the database that is
    ASCII, [lookups] offers an entry whose label has the same length as
    the status and contains no underscore. *)
Theorem lookups_labels_have_no_underscore :
  ∀ (unicode_title : string → string) (db : Database)
    (self : SimpleListFilter) (request : HttpRequest)
    (model_admin : ModelAdmin) (s : Subscription),
    s ∈ subscription_table db →
    str_is_ascii (status s) = true →
    ∃ label,
      [status s; label]
        ∈ CustomerSubscriptionStatusListFilter.lookups unicode_title db self
            request model_admin ∧
      String.length label = String.length (status s) ∧
      str_has_char "_" label = false.
Proof.
  intros unicode_title db self request model_admin s Hs Hascii.
  exists (str_title unicode_title (str_replace "_" " " (status s))).
  assert (Htitle : str_title unicode_title (str_replace "_" " " (status s))
                   = title_from false (str_replace "_" " " (status s))).
  { unfold str_title. by rewrite str_replace_is_ascii, Hascii. }
  split; [|split].
  - unfold CustomerSubscriptionStatusListFilter.lookups.
    apply elem_of_app. left. apply list_elem_of_fmap.
    exists (status s). split; [done|].
    apply elem_of_qs_distinct, list_elem_of_fmap. eauto.
  - by rewrite Htitle, title_from_length, str_replace_length.
  - by rewrite Htitle, title_from_has_underscore, str_replace_no_underscore.
Qed.

Lemma lookups_labels_have_no_underscore_witness :
  ∃ label,
    ["past_due"; label]
      ∈ CustomerSubscriptionStatusListFilter.lookups id sample_db
          unselected_filter sample_request sample_admin ∧
    String.length label = 8%nat ∧
    str_has_char "_" label = false.
Proof.
  apply (lookups_labels_have_no_underscore id sample_db unselected_filter
           sample_request sample_admin
           {| subscription_pk := 1; subscription_customer := 10;
              status := "past_due" |}).
  - apply list_elem_of_here.
  - reflexivity.
Defined.

(** ** Display columns *)

(** X19: [customer_user] raises exactly when the user of the invoice's
    customer has no attribute named [USERNAME_FIELD], and the exception is
    then an [AttributeError] for that name; a missing ['email'] attribute on
    the invoice never makes it raise. *)
Theorem customer_user_raises_iff_no_username :
  ∀ (User : UserModel) (obj : Invoice) (e : PyExc),
    customer_user User obj = Raise e
    ↔ e = AttributeError (USERNAME_FIELD User) ∧
      user_attrs (user (customer obj)) !! USERNAME_FIELD User = None.
Proof.
  intros User obj e. unfold customer_user, getattr_user.
  destruct (user_attrs (user (customer obj)) !! USERNAME_FIELD User) as [v|].
  - split; [discriminate|]. intros [_ Hnone]. discriminate.
  - split.
    + intros H. injection H as <-. done.
    + intros [-> _]. reflexivity.
Qed.

Lemma qs_exists_true {Row} (l : list Row) :
  qs_exists l = true ↔ ∃ x, x ∈ l.
Proof.
  destruct l as [|x l]; simpl.
  - split; [discriminate|]. intros [x Hx]. by apply not_elem_of_nil in Hx.
  - split; [|done]. intros _. exists x. apply list_elem_of_here.
Qed.

Lemma customer_has_card_true (db : Database) (obj : Invoice) :
  customer_has_card db obj = true
  ↔ ∃ c, c ∈ card_table db ∧ card_customer c = pk (customer obj) ∧
         fingerprint c ≠ "".
Proof.
  unfold customer_has_card. rewrite qs_exists_true. split.
  - intros (c & Hc). apply list_elem_of_filter in Hc as [Hfp Hc].
    apply elem_of_cards_of in Hc as [Hc Hcid]. eauto.
  - intros (c & Hc & Hcid & Hfp). exists c.
    apply list_elem_of_filter. split; [done|]. by apply elem_of_cards_of.
Qed.

(** X20: the column "Customer Has Card" is [True] exactly when the
    invoice's customer has a card with a non-empty fingerprint; for a
    customer without cards it is [False]. *)
Theorem customer_has_card_iff_usable_card :
  ∀ (db : Database) (obj : Invoice),
    (customer_has_card db obj = true
     ↔ ∃ c, c ∈ card_table db ∧ card_customer c = pk (customer obj) ∧
            fingerprint c ≠ "") ∧
    ((∀ c, c ∈ card_table db → card_customer c ≠ pk (customer obj)) →
     customer_has_card db obj = false).
Proof.
  intros db obj. split; [apply customer_has_card_true|].
  intros Hnone. apply not_true_is_false. intros Htrue.
  apply customer_has_card_true in Htrue as (c & Hc & Hcid & _).
  by apply (Hnone c).
Qed.

(** X21: the invoice filter and the column "Customer Has Card" agree on
    the invoices without a usable card: with value ["no"] the filter can be
    evaluated, every invoice of the queryset that shows [False] in the
    column is among the returned rows, and every invoice of the queryset
    that is not among them shows [True]. *)
Theorem invoice_filter_agrees_with_column :
  ∀ (db : Database) (no : SimpleListFilter) (request : HttpRequest)
    (queryset : list Invoice),
    InvoiceCustomerHasCardListFilter.value no = Some "no" →
    ∃ rows,
      InvoiceCustomerHasCardListFilter.queryset db no request queryset
      = Ok rows ∧
      ∀ r, r ∈ queryset →
           (customer_has_card db r = false → r ∈ rows) ∧
           (r ∉ rows → customer_has_card db r = true).
Proof.
  intros db no request queryset Hno.
  eexists. split; [by apply invoice_card_filter_no|].
  intros r Hr. rewrite elem_of_qs_filter, joined_no_card.
  assert (Hfalse : customer_has_card db r = false →
                   no_card_condition db (pk (customer r))).
  { unfold customer_has_card, no_card_condition. intros Hcol.
    destruct (cards_of db (pk (customer r))) as [|c cs] eqn:Hcs.
    - left. by apply cards_of_nil.
    - right. exists c.
      assert (Hc : c ∈ cards_of db (pk (customer r)))
        by (rewrite Hcs; apply list_elem_of_here).
      apply elem_of_cards_of in Hc as [Hc Hcid].
      split; [done|]. split; [done|].
      destruct (decide (fingerprint c = "")) as [Hfp|Hfp]; [done|].
      rewrite filter_cons_True in Hcol by done. discriminate. }
  split.
  - intros Hcol. split; [done|]. by apply Hfalse.
  - intros Hnot. destruct (customer_has_card db r) eqn:Hcol; [done|].
    exfalso. apply Hnot. split; [done|]. by apply Hfalse.
Qed.

Lemma invoice_filter_agrees_with_column_witness :
  ∃ rows,
    InvoiceCustomerHasCardListFilter.queryset sample_db (sample_filter "no")
      sample_request (sample_invoice <$> [10; 11; 12])
    = Ok rows ∧
    sample_invoice 12 ∈ rows.
Proof.
  destruct (invoice_filter_agrees_with_column sample_db (sample_filter "no")
              sample_request (sample_invoice <$> [10; 11; 12]))
    as (rows & Hrows & Hall); [vm_compute; reflexivity|].
  exists rows. split; [exact Hrows|].
  apply (Hall (sample_invoice 12)).
  - vm_compute. apply list_elem_of_further, list_elem_of_further,
      list_elem_of_here.
  - vm_compute. reflexivity.
Defined.

(** X22: the invoice filter and the column disagree on a customer that has
    both a card with an empty fingerprint and a card with a non-empty one:
    the column shows [True], yet the filter returns the invoice for
    ["no"], the choice labelled "Does Not Have a Card". *)
Theorem invoice_filter_differs_from_column :
  ∀ (db : Database) (no : SimpleListFilter) (request : HttpRequest)
    (queryset : list Invoice) (r : Invoice) (blank usable : Card),
    InvoiceCustomerHasCardListFilter.value no = Some "no" →
    blank ∈ card_table db → card_customer blank = pk (customer r) →
    fingerprint blank = "" →
    usable ∈ card_table db → card_customer usable = pk (customer r) →
    fingerprint usable ≠ "" →
    r ∈ queryset →
    customer_has_card db r = true ∧
    ∃ rows,
      InvoiceCustomerHasCardListFilter.queryset db no request queryset
      = Ok rows ∧
      r ∈ rows.
Proof.
  intros db no request queryset r blank usable Hno
    Hb Hbc Hbf Hu Huc Huf Hr.
  split.
  - apply customer_has_card_true. eauto.
  - eexists. split; [by apply invoice_card_filter_no|].
    rewrite elem_of_qs_filter, joined_no_card. split; [done|].
    right. eauto.
Qed.

Lemma invoice_filter_differs_from_column_witness :
  customer_has_card mixed_db (sample_invoice 20) = true ∧
  ∃ rows,
    InvoiceCustomerHasCardListFilter.queryset mixed_db (sample_filter "no")
      sample_request [sample_invoice 20]
    = Ok rows ∧
    sample_invoice 20 ∈ rows.
Proof.
  apply (invoice_filter_differs_from_column mixed_db (sample_filter "no")
           sample_request [sample_invoice 20] (sample_invoice 20)
           {| card_pk := 1; card_customer := 20; fingerprint := "" |}
           {| card_pk := 2; card_customer := 20;
              fingerprint := "Xt5EWLLDS7FJjR1c" |}).
  - vm_compute. reflexivity.
  - apply list_elem_of_here.
  - reflexivity.
  - reflexivity.
  - apply list_elem_of_further, list_elem_of_here.
  - reflexivity.
  - discriminate.
  - apply list_elem_of_here.
Defined.

Lemma str_app_nil_r (s : string) : s +:+ "" = s.
Proof.
  induction s as [|c s IH]; [done|].
  change (String c (s +:+ "") = String c s). by rewrite IH.
Qed.

Lemma str_app_assoc (a b c : string) : (a +:+ b) +:+ c = a +:+ b +:+ c.
Proof.
  induction a as [|x a IH]; [done|].
  change (String x ((a +:+ b) +:+ c) = String x (a +:+ b +:+ c)).
  by rewrite IH.
Qed.

Lemma str_join_cons (sep x y : string) (rest : list string) :
  str_join sep (x :: y :: rest) = x +:+ sep +:+ str_join sep (y :: rest).
Proof. reflexivity. Qed.

Lemma str_join_contains (sep x : string) (items : list string) :
  x ∈ items → str_contains (str_join sep items) x.
Proof.
  unfold str_contains. induction items as [|y rest IH]; intros Hx.
  - by apply not_elem_of_nil in Hx.
  - destruct rest as [|z rest].
    + apply list_elem_of_singleton in Hx as ->.
      exists "", "". rewrite str_app_nil_r. reflexivity.
    + rewrite str_join_cons. apply elem_of_cons in Hx as [->|Hx].
      * exists "", (sep +:+ str_join sep (z :: rest)). reflexivity.
      * destruct (IH Hx) as (pre & post & ->).
        exists (y +:+ sep +:+ pre), post. by rewrite !str_app_assoc.
Qed.

(** X23: the column "Subscription Status" is empty for a customer without
    subscriptions; in particular it is empty for every customer that the
    subscription status filter returns for ["none"]. *)
Theorem subscription_status_empty_for_none :
  ∀ (db : Database) (self : SimpleListFilter) (request : HttpRequest)
    (queryset : list Customer) (r : Customer),
    (has_no_subscription db (pk r) → subscription_status db r = "") ∧
    (CustomerSubscriptionStatusListFilter.value self = Some "none" →
     r ∈ CustomerSubscriptionStatusListFilter.queryset db self request queryset →
     subscription_status db r = "").
Proof.
  intros db self request queryset r.
  assert (Hempty : has_no_subscription db (pk r) → subscription_status db r = "").
  { intros Hno. apply subscriptions_of_nil in Hno.
    unfold subscription_status. by rewrite Hno. }
  split; [exact Hempty|]. intros Hv Hr. apply Hempty.
  rewrite elem_of_status_filter, Hv in Hr. unfold status_selected in Hr.
  rewrite decide_True in Hr by done. by destruct Hr.
Qed.

Lemma subscription_status_empty_for_none_witness :
  subscription_status sample_db (sample_customer 12) = "".
Proof.
  apply (proj2 (subscription_status_empty_for_none sample_db
                  (status_filter "none") sample_request
                  (sample_customer <$> [10; 11; 12]) (sample_customer 12))).
  - apply status_filter_value.
  - vm_compute. apply list_elem_of_here.
Defined.

(** X24: the column "Subscription Status" shows every status of the
    customer's subscriptions; in particular a customer returned by the
    subscription status filter for a non-empty value [v] other than
    ["none"] shows [v] in the column. *)
Theorem subscription_status_shows_selected_status :
  ∀ (db : Database) (self : SimpleListFilter) (request : HttpRequest)
    (queryset : list Customer) (r : Customer) (v : string),
    (has_subscription_with_status db (pk r) v →
     str_contains (subscription_status db r) v) ∧
    (CustomerSubscriptionStatusListFilter.value self = Some v →
     v ≠ "none" → v ≠ "" →
     r ∈ CustomerSubscriptionStatusListFilter.queryset db self request queryset →
     str_contains (subscription_status db r) v).
Proof.
  intros db self request queryset r v.
  assert (Hshow : has_subscription_with_status db (pk r) v →
                  str_contains (subscription_status db r) v).
  { intros (s & Hs & Hcid & Hst). unfold subscription_status.
    apply str_join_contains, list_elem_of_fmap. exists s. split; [done|].
    by apply elem_of_subscriptions_of. }
  split; [exact Hshow|]. intros Hv Hnone Hne Hr. apply Hshow.
  rewrite elem_of_status_filter, Hv in Hr. unfold status_selected in Hr.
  rewrite decide_False in Hr by congruence. simpl in Hr.
  rewrite bool_decide_eq_true_2 in Hr by done.
  destruct Hr as [_ (s & Hs & Hcid & Hst)]. exists s. split_and!; congruence.
Qed.

Lemma subscription_status_shows_selected_status_witness :
  str_contains (subscription_status sample_db (sample_customer 11)) "past_due".
Proof.
  apply (proj2 (subscription_status_shows_selected_status sample_db
                  (status_filter "past_due") sample_request
                  (sample_customer <$> [10; 11; 12]) (sample_customer 11)
                  "past_due")).
  - apply status_filter_value.
  - discriminate.
  - discriminate.
  - vm_compute. apply list_elem_of_further, list_elem_of_here.
Defined.

Example subscription_status_sample :
  subscription_status sample_db (sample_customer 11) = "active, past_due".
Proof. vm_compute. reflexivity. Qed.

Example customer_has_card_sample :
  customer_has_card sample_db <$> (sample_invoice <$> [10; 11; 12])
  = [false; true; false].
Proof. vm_compute. reflexivity. Qed.
